(** * Voice assistant: the orchestration service (main.py) and the
      session controller (app.py), embedded and verified.

    The service endpoints are functions in a small effect monad over an
    abstract provider world; every provider call is recorded.  The client
    script is a function in the same monad over its session state and an
    abstract network; every request and every user-interface call is
    recorded together with the session state in which it was made. *)

From Stdlib Require Import String Ascii.
From Stdlib Require Import List ZArith NArith Bool Lia.
From Stdlib Require Strings.Byte.
Import ListNotations.

Set Implicit Arguments.

(** ** Python values *)

(** A [str] is a sequence of Unicode code points, [bytes] a sequence of
    octets. *)
Definition codepoint := N.
Definition str := list codepoint.
Definition bytes := list Byte.byte.

(** An ASCII literal of the source as a [str]. *)
Definition lit (s : string) : str :=
  map N_of_ascii (list_ascii_of_string s).
Arguments lit s%_string.

Definition bytes_eq_dec : forall a b : bytes, {a = b} + {a <> b} :=
  list_eq_dec Strings.Byte.byte_eq_dec.

Definition opt_bytes_eq_dec (a b : option bytes) : {a = b} + {a <> b}.
Proof. decide equality. apply bytes_eq_dec. Defined.

(** Truth value of a sequence ([str], [bytes], [list]): non-empty. *)
Definition truthy {A} (x : list A) : bool :=
  match x with [] => false | _ :: _ => true end.

(** [str.isspace] on one code point: the whitespace code points of
    Python's Unicode database. *)
Definition isspace (c : codepoint) : bool :=
  ((9 <=? c) && (c <=? 13) || (28 <=? c) && (c <=? 32)
   || (c =? 133) || (c =? 160) || (c =? 5760)
   || (8192 <=? c) && (c <=? 8202)
   || (c =? 8232) || (c =? 8233) || (c =? 8239) || (c =? 8287)
   || (c =? 12288))%N.

Fixpoint lstrip (s : str) : str :=
  match s with
  | c :: s' => if isspace c then lstrip s' else s
  | [] => []
  end.

Definition rstrip (s : str) : str := rev (lstrip (rev s)).

(** [s.strip()] *)
Definition strip (s : str) : str := rstrip (lstrip s).

(** [x and x.strip()] as a condition. *)
Definition and_strip (x : option str) : bool :=
  match x with
  | Some s => truthy s && truthy (strip s)
  | None => false
  end.

(** [a == b] on two [str]. *)
Definition str_eqb (a b : str) : bool :=
  if list_eq_dec N.eq_dec a b then true else false.

(** [s.startswith(p)] and [p in s] *)
Fixpoint startswith (p s : str) : bool :=
  match p, s with
  | [], _ => true
  | a :: p', b :: s' => (a =? b)%N && startswith p' s'
  | _ :: _, [] => false
  end.

Fixpoint contains (p s : str) : bool :=
  startswith p s
  || match s with
     | [] => false
     | _ :: s' => contains p s'
     end.

(** [l[start:]] *)
Definition slice_from {A} (start : Z) (l : list A) : list A :=
  let len := Z.of_nat (length l) in
  let i := if (start <? 0)%Z then Z.max (start + len) 0 else Z.min start len in
  skipn (Z.to_nat i) l.

(** What travels between the two programs. *)
Module Api.
(** The dictionaries [{"role": ..., "content": ...}] of a conversation. *)
Record chat_message := { role : str; content : str }.

(** The JSON body of a request to /chat; the service reads it as its
    [ChatRequest] model. *)
Record ChatRequest := {
  message : str;
  conversation_history : list chat_message }.
End Api.

(** The text of [base64.b64encode(b).decode()]; the encoding itself is the
    standard library's and is kept symbolic. *)
Inductive base64 := b64encode (b : bytes).

(** ** Effects: state, a record of events, exceptions *)

Module Eff.
Section Eff.
Variables St Ev : Type.

Inductive outcome (Ex A : Type) :=
| Return (a : A)
| Raise (e : Ex).

Definition M (Ex A : Type) := St -> outcome Ex A * St * list Ev.

Definition ret {Ex A} (a : A) : M Ex A := fun s => (Return Ex a, s, []).

Definition raise {Ex A} (e : Ex) : M Ex A := fun s => (Raise A e, s, []).

Definition bind {Ex A B} (m : M Ex A) (k : A -> M Ex B) : M Ex B :=
  fun s =>
    match m s with
    | (Return _ a, s1, t1) =>
        let '(r, s2, t2) := k a s1 in (r, s2, t1 ++ t2)
    | (Raise _ e, s1, t1) => (Raise B e, s1, t1)
    end.

(** [try: body  except Exception as e: handler e] *)
Definition try_except {Ex Ex' A} (body : M Ex A) (handler : Ex -> M Ex' A)
  : M Ex' A :=
  fun s =>
    match body s with
    | (Return _ a, s1, t1) => (Return Ex' a, s1, t1)
    | (Raise _ e, s1, t1) =>
        let '(r, s2, t2) := handler e s1 in (r, s2, t1 ++ t2)
    end.

Definition map {Ex A B} (f : A -> B) (m : M Ex A) : M Ex B :=
  fun s =>
    match m s with
    | (Return _ a, s1, t1) => (Return Ex (f a), s1, t1)
    | (Raise _ e, s1, t1) => (Raise B e, s1, t1)
    end.

Definition result {Ex A} (x : outcome Ex A * St * list Ev) := fst (fst x).
Definition final {Ex A} (x : outcome Ex A * St * list Ev) := snd (fst x).
Definition events {Ex A} (x : outcome Ex A * St * list Ev) := snd x.
End Eff.
End Eff.

Arguments Eff.Return {Ex A} a.
Arguments Eff.Raise {Ex A} e.
Arguments Eff.ret {St Ev Ex A} a.
Arguments Eff.raise {St Ev Ex A} e.
Arguments Eff.bind {St Ev Ex A B} m k.
Arguments Eff.try_except {St Ev Ex Ex' A} body handler.
Arguments Eff.map {St Ev Ex A B} f m.
Arguments Eff.result {St Ev Ex A} x.
Arguments Eff.final {St Ev Ex A} x.
Arguments Eff.events {St Ev Ex A} x.

Declare Scope eff_scope.
Delimit Scope eff_scope with eff.
Notation "x <- m ;; k" := (Eff.bind m (fun x => k))
  (at level 100, m at next level, right associativity) : eff_scope.
Notation "m ;; k" := (Eff.bind m (fun _ => k))
  (at level 100, right associativity) : eff_scope.

(** ** main.py: the orchestration service *)

Module Server.
Import Eff.
Import Api.

(** What an endpoint raises: an exception of the program, known by its
    [str(e)], or FastAPI's [HTTPException]. *)
Inductive exn :=
| Exception (str_e : str)
| HTTPException (status_code : Z) (detail : str).

(** The calls made on the provider clients [dg_client] and [groq_client].
    The options of a call other than the model name (sampling parameters,
    voice model, formatting) are constants of the source and are left out,
    and so is what the endpoints print. *)
Inductive call :=
| transcribe_file (buffer : bytes)
| completions_create (model : str) (messages : list chat_message)
| speak_save (text : str).

(** How a call ended. *)
Inductive fate :=
| returned
| raised (str_e : str).

(** Each call is recorded with its fate. *)
Definition provider_event := (call * fate)%type.

(** The providers: each call returns a value or raises an exception
    ([inl], with its [str(e)]), and moves the providers' own state. *)
Record providers (W : Type) := {
  (* response.results.channels[0].alternatives[0].transcript *)
  dg_transcribe : bytes -> W -> (str + str) * W;
  (* completion.choices[0].message.content *)
  groq_complete : list chat_message -> W -> (str + str) * W;
  (* the bytes of the file written by save and read back *)
  dg_speak : str -> W -> (str + bytes) * W }.

Record TextRequest := { text : str }.

Record stt_body := { transcript : str; stt_success : bool }.
Record chat_body := { response : str; chat_success : bool }.
Record tts_body := { audio : base64; mime_type : str; tts_success : bool }.
Record voice_body := {
  user_text : str; bot_text : str; bot_audio : base64;
  audio_mime : str; voice_success : bool }.

Inductive http_request :=
| POST_speech_to_text (audio : bytes)
| POST_chat (request : ChatRequest)
| POST_text_to_speech (request : TextRequest)
| POST_voice (file : bytes).

Inductive http_body :=
| stt_json (b : stt_body)
| chat_json (b : chat_body)
| tts_json (b : tts_body)
| voice_json (b : voice_body).

Section Endpoints.
Variable W : Type.
Variable P : providers W.

(** Inside a [try] block exceptions are known by their [str(e)]. *)
Definition body := M W provider_event str.
Definition endpoint := M W provider_event exn.

Definition provider {A} (c : call) (f : W -> (str + A) * W) : body A :=
  fun w =>
    let '(r, w') := f w in
    match r with
    | inl e => (Raise e, w', [(c, raised e)])
    | inr a => (Return a, w', [(c, returned)])
    end.

Definition transcribe (audio_data : bytes) : body str :=
  provider (transcribe_file audio_data) (dg_transcribe P audio_data).

Definition complete (model : str) (messages : list chat_message) : body str :=
  provider (completions_create model messages) (groq_complete P messages).

Definition speak (text : str) : body bytes :=
  provider (speak_save text) (dg_speak P text).

(** [except Exception as e: raise HTTPException(status_code=500,
    detail=f"Error: {str(e)}")] *)
Definition except_500 {A} (e : str) : endpoint A :=
  raise (HTTPException 500 (lit "Error: " ++ e)).

Definition speech_to_text_endpoint (audio_data : bytes) : endpoint stt_body :=
  try_except
    (transcript <- transcribe audio_data ;;
     ret {| transcript := transcript; stt_success := true |})%eff
    except_500.

Definition system_chat : chat_message :=
  {| role := lit "system";
     content := lit "You are a helpful voice assistant. Give short, direct answers in 2-3 sentences maximum. Never repeat yourself." |}.

Definition recent_history (request : ChatRequest) : list chat_message :=
  if (6 <? length (conversation_history request))%nat
  then slice_from (-6) (conversation_history request)
  else conversation_history request.

(** The list [messages] built by [chat]. *)
Definition chat_messages (request : ChatRequest) : list chat_message :=
  ([system_chat] ++ recent_history request)
    ++ [{| role := lit "user"; content := message request |}].

Definition chat (request : ChatRequest) : endpoint chat_body :=
  try_except
    (ai_response <- complete (lit "llama-3.3-70b-versatile")
                             (chat_messages request) ;;
     ret {| response := ai_response; chat_success := true |})%eff
    except_500.

Definition text_to_speech_endpoint (request : TextRequest) : endpoint tts_body :=
  try_except
    (audio_bytes <- speak (text request) ;;
     ret {| audio := b64encode audio_bytes;
            mime_type := lit "audio/mpeg";
            tts_success := true |})%eff
    except_500.

Definition system_voice : chat_message :=
  {| role := lit "system";
     content := lit "You are a helpful voice assistant. Give short, direct answers in 2-3 sentences. Never repeat yourself." |}.

Definition voice_bot (audio_bytes : bytes) : endpoint voice_body :=
  try_except
    (user_text <- transcribe audio_bytes ;;
     bot_text <- complete (lit "llama-3.3-70b-versatile")
                   [system_voice;
                    {| role := lit "user"; content := user_text |}] ;;
     bot_audio_bytes <- speak bot_text ;;
     ret {| user_text := user_text;
            bot_text := bot_text;
            bot_audio := b64encode bot_audio_bytes;
            audio_mime := lit "audio/mpeg";
            voice_success := true |})%eff
    except_500.

(** The application: the four POST routes. *)
Definition app (r : http_request) : endpoint http_body :=
  match r with
  | POST_speech_to_text audio => map stt_json (speech_to_text_endpoint audio)
  | POST_chat request => map chat_json (chat request)
  | POST_text_to_speech request => map tts_json (text_to_speech_endpoint request)
  | POST_voice file => map voice_json (voice_bot file)
  end.
End Endpoints.
End Server.

(** ** app.py: the session controller *)

Module Client.
Import Eff.

(** An entry of [st.session_state.messages]; the key ["audio"] is present
    on assistant entries only. *)
Record display_message := {
  role : str;
  content : str;
  audio : option bytes }.

Record session_state := {
  conversation_history : list Api.chat_message;
  messages : list display_message;
  processing : bool;
  last_audio_bytes : option bytes }.

(** Lines 14-21: the state of a fresh session. *)
Definition initial_session_state : session_state :=
  {| conversation_history := [];
     messages := [];
     processing := false;
     last_audio_bytes := None |}.

Definition set_processing (v : bool) (s : session_state) :=
  {| conversation_history := conversation_history s;
     messages := messages s;
     processing := v;
     last_audio_bytes := last_audio_bytes s |}.

Definition set_last_audio_bytes (v : option bytes) (s : session_state) :=
  {| conversation_history := conversation_history s;
     messages := messages s;
     processing := processing s;
     last_audio_bytes := v |}.

Definition messages_append (m : display_message) (s : session_state) :=
  {| conversation_history := conversation_history s;
     messages := messages s ++ [m];
     processing := processing s;
     last_audio_bytes := last_audio_bytes s |}.

Definition conversation_history_append (m : Api.chat_message) (s : session_state) :=
  {| conversation_history := conversation_history s ++ [m];
     messages := messages s;
     processing := processing s;
     last_audio_bytes := last_audio_bytes s |}.

(** A response of [requests.post]: its status, its text, and what the
    client reads out of its body: [response.json()[key]] (for
    /text-to-speech, the base64 decoding of that), or the exception this
    raises ([inl], with its [str(e)]). *)
Record Response (A : Type) := {
  status_code : Z;
  text : str;
  payload : str + A }.

(** What the sidebar reads in the body of GET /: the truth values of
    [data.get("deepgram_connected")] and [data.get("groq_connected")]. *)
Record status_data := {
  deepgram_connected : bool;
  groq_connected : bool }.

(** The network as the client meets it: [requests.get] and [requests.post]
    return a response or raise ([inl]), and the world behind it moves. *)
Record network (W : Type) := {
  get_root : W -> (str + Response status_data) * W;
  post_speech_to_text : bytes -> W -> (str + Response (option str)) * W;
  post_chat : Api.ChatRequest -> W -> (str + Response (option str)) * W;
  post_text_to_speech : str -> W -> (str + Response bytes) * W }.

(** What the script does to the outside: its requests, the messages it
    shows ([st.success], [st.warning], [st.error], [st.info]), the audio it
    plays, and what it draws inside the chat container ([st_chat_message],
    [st_markdown] and [st_audio], lines 139-144). *)
Inductive action :=
| requests_get_root
| requests_post_speech_to_text (audio_bytes : bytes)
| requests_post_chat (data : Api.ChatRequest)
| requests_post_text_to_speech (text : str)
| st_success (body : str)
| st_warning (body : str)
| st_error (body : str)
| st_info (body : str)
| st_markdown_audio (audio_bytes : bytes)
| st_chat_message (name : str)
| st_markdown (body : str)
| st_audio (data : bytes)
| st_rerun.

(** Each action is recorded with the session state it was made in. *)
Definition event := (session_state * action)%type.

(** [st.rerun()] ends the script run. *)
Inductive control := RerunException.

(** The widgets' values in one run of the script. *)
Record inputs := {
  clear_conversation : bool;
  audio_recorder : option bytes;
  chat_input : option str }.

Section Script.
Variable W : Type.
Variable net : network W.

Definition script := M (session_state * W) event control.
Definition body := M (session_state * W) event str.

Definition session {Ex} : M (session_state * W) event Ex session_state :=
  fun sw => (Return (fst sw), sw, []).

Definition update {Ex} (f : session_state -> session_state)
  : M (session_state * W) event Ex unit :=
  fun sw => (Return tt, (f (fst sw), snd sw), []).

Definition do {Ex} (a : action) : M (session_state * W) event Ex unit :=
  fun sw => (Return tt, sw, [(fst sw, a)]).

Definition request {A} (a : action) (f : W -> (str + A) * W) : body A :=
  fun sw =>
    let '(r, w') := f (snd sw) in
    (match r with inl e => Raise e | inr x => Return x end,
     (fst sw, w'), [(fst sw, a)]).

Definition read {A} (r : str + A) : body A :=
  match r with inl e => raise e | inr x => ret x end.

Definition rerun {A} : script A :=
  (do st_rerun ;; raise RerunException)%eff.

Definition speech_to_text (audio_bytes : bytes) : script (option str) :=
  try_except
    (response <- request (requests_post_speech_to_text audio_bytes)
                         (post_speech_to_text net audio_bytes) ;;
     if (status_code response =? 200)%Z then
       read (payload response)
     else
       do (st_error (lit "Speech-to-text error: " ++ text response)) ;;
       ret None)%eff
    (fun e => do (st_error (lit "Error: " ++ e)) ;; ret None)%eff.

Definition get_ai_response (message : str) : script (option str) :=
  try_except
    (s <- session ;;
     let data :=
       {| Api.message := message;
          Api.conversation_history :=
            slice_from (-10) (conversation_history s) |} in
     response <- request (requests_post_chat data) (post_chat net data) ;;
     if (status_code response =? 200)%Z then
       read (payload response)
     else
       do (st_error (lit "Chat error: " ++ text response)) ;;
       ret None)%eff
    (fun e => do (st_error (lit "Error: " ++ e)) ;; ret None)%eff.

Definition text_to_speech (text_ : str) : script (option bytes) :=
  try_except
    (response <- request (requests_post_text_to_speech text_)
                         (post_text_to_speech net text_) ;;
     if (status_code response =? 200)%Z then
       audio_bytes <- read (payload response) ;;
       ret (Some audio_bytes)
     else
       do (st_error (lit "Text-to-speech error: " ++ text response)) ;;
       ret None)%eff
    (fun e => do (st_error (lit "Error: " ++ e)) ;; ret None)%eff.

Definition autoplay_audio (audio_bytes : bytes) : script unit :=
  do (st_markdown_audio audio_bytes).

(** Lines 107-112. *)
Definition sidebar (clear : bool) : script unit :=
  if clear then
    (update (fun _ => initial_session_state) ;; rerun)%eff
  else ret tt.

(** Lines 114-129: the backend status in the sidebar.  The bare [except]
    takes every exception of the block. *)
Definition status_check : script unit :=
  try_except
    (response <- request requests_get_root (get_root net) ;;
     if (status_code response =? 200)%Z then
       do (st_success (9989%N :: lit " Backend Connected")) ;;
       data <- read (payload response) ;;
       (if deepgram_connected data
        then do (st_success (9989%N :: lit " Deepgram Connected"))
        else ret tt) ;;
       (if groq_connected data
        then do (st_success (9989%N :: lit " Groq Connected"))
        else ret tt)
     else
       do (st_error (10060%N :: lit " Backend Error")))%eff
    (fun _ =>
       do (st_error (10060%N :: lit " Backend Offline")) ;;
       do (st_info (lit "Make sure to run: python main.py")))%eff.

(** Lines 141-144: one message of the conversation. *)
Definition show (msg : display_message) : script unit :=
  (do (st_chat_message (role msg)) ;;
   do (st_markdown (content msg)) ;;
   if str_eqb (role msg) (lit "assistant") then
     match audio msg with
     | Some data => do (st_audio data)
     | None => ret tt
     end
   else ret tt)%eff.

(** Lines 140-144: the loop over the messages. *)
Fixpoint show_all (msgs : list display_message) : script unit :=
  match msgs with
  | [] => ret tt
  | msg :: later => (show msg ;; show_all later)%eff
  end.

(** Lines 137-144: the chat container, drawn from the session as it is at
    that point of the run. *)
Definition chat_container : script unit :=
  (s <- session ;; show_all (messages s))%eff.

(** Lines 176-213 of the voice branch and 230-267 of the text branch:
    the same statements, for the transcript or the typed text. *)
Definition turn (user_text : str) : script unit :=
  (update (messages_append
             {| role := lit "user"; content := user_text; audio := None |}) ;;
   update (conversation_history_append
             {| Api.role := lit "user"; Api.content := user_text |}) ;;
   ai_response <- get_ai_response user_text ;;
   if and_strip ai_response then
     let reply := match ai_response with Some r => r | None => [] end in
     audio_data <- text_to_speech reply ;;
     match audio_data with
     | Some ((_ :: _) as clip) =>
         update (messages_append
                   {| role := lit "assistant"; content := reply;
                      audio := Some clip |}) ;;
         update (conversation_history_append
                   {| Api.role := lit "assistant"; Api.content := reply |}) ;;
         do (st_success (9989%N :: lit " Response generated!")) ;;
         autoplay_audio clip ;;
         update (set_processing false) ;;
         rerun
     | _ =>
         do (st_error (lit "Failed to generate speech audio")) ;;
         update (set_processing false)
     end
   else
     do (st_error (lit "Failed to get AI response")) ;;
     update (set_processing false))%eff.

(** Lines 166-217: a voice turn. *)
Definition voice_turn (audio_bytes : bytes) : script unit :=
  (update (set_last_audio_bytes (Some audio_bytes)) ;;
   update (set_processing true) ;;
   transcript <- speech_to_text audio_bytes ;;
   if and_strip transcript then
     let said := match transcript with Some t => t | None => [] end in
     do (st_success (9989%N :: lit " You said: " ++ said)) ;;
     turn said
   else
     do (st_warning (lit "No speech detected. Please try again.")) ;;
     update (set_processing false) ;;
     update (set_last_audio_bytes None))%eff.

(** Lines 150-217: the recorder, shown when idle, and the guard of a
    voice turn. *)
Definition voice_input (recorded : option bytes) : script unit :=
  (s <- session ;;
   audio_bytes <- (if negb (processing s) then ret recorded
                   else do (st_info (lit "Processing... Please wait")) ;;
                        ret None) ;;
   s <- session ;;
   match audio_bytes with
   | Some clip =>
       if truthy clip && negb (processing s) then
         if opt_bytes_eq_dec (last_audio_bytes s) (Some clip) then ret tt
         else voice_turn clip
       else ret tt
   | None => ret tt
   end)%eff.

(** Lines 227-267: a text turn. *)
Definition text_turn (user_input : str) : script unit :=
  (update (set_processing true) ;;
   turn user_input)%eff.

(** Lines 220-267: the text box, shown when idle, and the guard of a
    text turn. *)
Definition text_input (typed : option str) : script unit :=
  (s <- session ;;
   user_input <- (if negb (processing s) then ret typed
                  else do (st_info (9203%N :: lit " Processing voice input... Text input disabled temporarily")) ;;
                       ret None) ;;
   match user_input with
   | Some u => if truthy u then text_turn u else ret tt
   | None => ret tt
   end)%eff.

(** One run of the script, top to bottom.  The fixed layout of the page
    (page configuration, titles, the list of features, headers, dividers,
    spinners, the footer) is the same text wherever a run reaches it, reads
    no state and sends nothing; it is not recorded among the events. *)
Definition run (i : inputs) : script unit :=
  (sidebar (clear_conversation i) ;;
   status_check ;;
   chat_container ;;
   voice_input (audio_recorder i) ;;
   text_input (chat_input i))%eff.
End Script.

(** *** Vocabulary of the statements *)

(** The requests of the turn pipeline: the three POST requests. *)
Definition is_request (a : action) : bool :=
  match a with
  | requests_post_speech_to_text _
  | requests_post_chat _
  | requests_post_text_to_speech _ => true
  | _ => false
  end.

(** What the sidebar can show about the backend (lines 118-129). *)
Definition status_messages : list action :=
  [st_success (9989%N :: lit " Backend Connected");
   st_success (9989%N :: lit " Deepgram Connected");
   st_success (9989%N :: lit " Groq Connected");
   st_error (10060%N :: lit " Backend Error");
   st_error (10060%N :: lit " Backend Offline");
   st_info (lit "Make sure to run: python main.py")].

(** The calls that draw the chat container. *)
Definition is_drawing (a : action) : bool :=
  match a with
  | st_chat_message _ | st_markdown _ | st_audio _ => true
  | _ => false
  end.

(** What [show] draws for a message (lines 141-144). *)
Definition drawing (msg : display_message) : list action :=
  st_chat_message (role msg)
  :: st_markdown (content msg)
  :: (if str_eqb (role msg) (lit "assistant") then
        match audio msg with
        | Some data => [st_audio data]
        | None => []
        end
      else []).

(** What the page shows above the inputs, in session [s]: the status
    request and its messages, and the chat container. *)
Definition page_event (s : session_state) (ev : event) : Prop :=
  fst ev = s
  /\ (snd ev = requests_get_root
      \/ In (snd ev) status_messages
      \/ is_drawing (snd ev) = true).

(** The session after the user turn was appended (lines 176-177, 230-231). *)
Definition user_turn (u : str) (s : session_state) : session_state :=
  conversation_history_append
    {| Api.role := lit "user"; Api.content := u |}
    (messages_append {| role := lit "user"; content := u; audio := None |} s).

(** The session after the assistant turn was appended (lines 190-198,
    244-252). *)
Definition assistant_turn (reply : str) (audio_data : bytes) (s : session_state)
  : session_state :=
  conversation_history_append
    {| Api.role := lit "assistant"; Api.content := reply |}
    (messages_append
       {| role := lit "assistant"; content := reply; audio := Some audio_data |}
       s).

(** The signals of the failing stages. *)
Definition no_speech_detected : action :=
  st_warning (lit "No speech detected. Please try again.").
Definition failed_ai_response : action :=
  st_error (lit "Failed to get AI response").
Definition failed_speech_audio : action :=
  st_error (lit "Failed to generate speech audio").

(** [if audio_data:] takes its else branch: nothing came back, or an
    empty clip. *)
Definition no_audio (audio_data : option bytes) : bool :=
  match audio_data with
  | Some clip => negb (truthy clip)
  | None => true
  end.

(** An error shown by one of the three request helpers, in session [s]. *)
Definition reported (s : session_state) (ev : event) : Prop :=
  fst ev = s
  /\ exists b,
       snd ev = st_error b
       /\ existsb (fun p => startswith p b)
            [lit "Error: "; lit "Speech-to-text error: ";
             lit "Chat error: "; lit "Text-to-speech error: "] = true.

(** The request of [get_ai_response(u)] made in session [s]. *)
Definition chat_request (u : str) (s : session_state) : event :=
  (s, requests_post_chat
        {| Api.message := u;
           Api.conversation_history :=
             slice_from (-10) (conversation_history s) |}).

(** The three ways in which the statements shared by both kinds of turn
    (lines 176-213, 230-267) end, started in session [s] for the user text
    [u]: the result of the script, the session left behind, and what was
    done. *)
Inductive turn_end (u : str) (s : session_state)
  : Eff.outcome control unit -> session_state -> list event -> Prop :=
| chat_failed errs :
    Forall (reported (user_turn u s)) errs ->
    turn_end u s (Eff.Return tt) (set_processing false (user_turn u s))
      (chat_request u (user_turn u s)
       :: errs ++ [(user_turn u s, failed_ai_response)])
| synthesis_failed reply errs errs' :
    and_strip (Some reply) = true ->
    Forall (reported (user_turn u s)) errs ->
    Forall (reported (user_turn u s)) errs' ->
    turn_end u s (Eff.Return tt) (set_processing false (user_turn u s))
      (chat_request u (user_turn u s)
       :: errs
       ++ (user_turn u s, requests_post_text_to_speech reply)
       :: errs' ++ [(user_turn u s, failed_speech_audio)])
| answered reply audio_data errs errs' :
    and_strip (Some reply) = true ->
    truthy audio_data = true ->
    Forall (reported (user_turn u s)) errs ->
    Forall (reported (user_turn u s)) errs' ->
    turn_end u s (Eff.Raise RerunException)
      (set_processing false (assistant_turn reply audio_data (user_turn u s)))
      (chat_request u (user_turn u s)
       :: errs
       ++ (user_turn u s, requests_post_text_to_speech reply)
       :: errs'
       ++ [(assistant_turn reply audio_data (user_turn u s),
            st_success (9989%N :: lit " Response generated!"));
           (assistant_turn reply audio_data (user_turn u s),
            st_markdown_audio audio_data);
           (set_processing false
              (assistant_turn reply audio_data (user_turn u s)),
            st_rerun)]).

(** The session in which the pipeline of a voice turn runs (after lines
    166-167). *)
Definition voice_turn_start (audio_bytes : bytes) (s : session_state)
  : session_state :=
  set_processing true (set_last_audio_bytes (Some audio_bytes) s).

(** The two ways in which a voice turn ends, started in session [s] for the
    recording [audio_bytes], by the transcript that [speech_to_text]
    returned. *)
Inductive voice_turn_end (audio_bytes : bytes) (s : session_state)
  : option str -> Eff.outcome control unit -> session_state -> list event
    -> Prop :=
| nothing_heard transcript errs :
    and_strip transcript = false ->
    Forall (reported (voice_turn_start audio_bytes s)) errs ->
    voice_turn_end audio_bytes s transcript (Eff.Return tt)
      (set_last_audio_bytes None
         (set_processing false (voice_turn_start audio_bytes s)))
      ((voice_turn_start audio_bytes s,
        requests_post_speech_to_text audio_bytes)
       :: errs ++ [(voice_turn_start audio_bytes s, no_speech_detected)])
| heard said errs o s' evs :
    and_strip (Some said) = true ->
    Forall (reported (voice_turn_start audio_bytes s)) errs ->
    turn_end said (voice_turn_start audio_bytes s) o s' evs ->
    voice_turn_end audio_bytes s (Some said) o s'
      ((voice_turn_start audio_bytes s,
        requests_post_speech_to_text audio_bytes)
       :: errs
       ++ (voice_turn_start audio_bytes s,
           st_success (9989%N :: lit " You said: " ++ said))
       :: evs).

(** A new input: a recording that differs from the stored one, or typed
    text. *)
Definition new_input (s : session_state) (i : inputs) : Prop :=
  (exists audio_bytes,
      audio_recorder i = Some audio_bytes
      /\ truthy audio_bytes = true
      /\ last_audio_bytes s <> Some audio_bytes)
  \/ (exists u, chat_input i = Some u /\ truthy u = true).
End Client.

(** ** Concrete providers and networks, for running the definitions *)

Module Fixtures.
Import Eff.

(** Providers that are unreachable: every call raises. *)
Definition providers_down : Server.providers unit :=
  {| Server.dg_transcribe := fun _ w => (inl (lit "timed out"), w);
     Server.groq_complete := fun _ w => (inl (lit "timed out"), w);
     Server.dg_speak := fun _ w => (inl (lit "timed out"), w) |}.

(** Providers that answer: a fixed transcript, a fixed reply, a fixed clip. *)
Definition providers_up : Server.providers unit :=
  {| Server.dg_transcribe := fun _ w => (inr (lit "What is 2+2?"), w);
     Server.groq_complete := fun _ w => (inr (lit "Four."), w);
     Server.dg_speak := fun _ w => (inr [Byte.x49; Byte.x44; Byte.x33], w) |}.

Definition ok {A} (v : A) : str + Client.Response A :=
  inr {| Client.status_code := 200; Client.text := []; Client.payload := inr v |}.

Definition failed {A} : str + Client.Response A :=
  inr {| Client.status_code := 500;
         Client.text := lit "Error: timed out";
         Client.payload := inl (lit "'audio'") |}.

(** The body of GET / of a service that is up. *)
Definition connected : Client.status_data :=
  {| Client.deepgram_connected := true; Client.groq_connected := true |}.

(** A network on which every stage succeeds. *)
Definition network_up : Client.network unit :=
  {| Client.get_root := fun w => (ok connected, w);
     Client.post_speech_to_text := fun _ w => (ok (Some (lit "What is 2+2?")), w);
     Client.post_chat := fun _ w => (ok (Some (lit "Four.")), w);
     Client.post_text_to_speech := fun _ w => (ok [Byte.x49; Byte.x44; Byte.x33], w) |}.

(** A network on which transcription hears nothing. *)
Definition network_silence : Client.network unit :=
  {| Client.get_root := fun w => (ok connected, w);
     Client.post_speech_to_text := fun _ w => (ok (Some (lit "  ")), w);
     Client.post_chat := fun _ w => (ok (Some (lit "Four.")), w);
     Client.post_text_to_speech := fun _ w => (ok [Byte.x49; Byte.x44; Byte.x33], w) |}.

(** A network on which speech synthesis fails. *)
Definition network_mute : Client.network unit :=
  {| Client.get_root := fun w => (ok connected, w);
     Client.post_speech_to_text := fun _ w => (ok (Some (lit "What is 2+2?")), w);
     Client.post_chat := fun _ w => (ok (Some (lit "Four.")), w);
     Client.post_text_to_speech := fun _ w => (failed, w) |}.


Definition clip : bytes := [Byte.x52; Byte.x49; Byte.x46; Byte.x46].

Definition speak_clip : Client.inputs :=
  {| Client.clear_conversation := false;
     Client.audio_recorder := Some clip;
     Client.chat_input := None |}.

Definition type_text (u : str) : Client.inputs :=
  {| Client.clear_conversation := false;
     Client.audio_recorder := None;
     Client.chat_input := Some u |}.
End Fixtures.

(** ** main.py: start-up and the GET routes *)

Module Service.
Import Eff.

(** Lines 17-18: what [os.getenv] returns for the two keys. *)
Record environment := {
  DEEPGRAM_API_KEY : option str;
  GROQ_API_KEY : option str }.

(** [bool(key)]: the key is set and not empty. *)
Definition bool_of (key : option str) : bool :=
  match key with
  | Some k => truthy k
  | None => false
  end.

Inductive RuntimeError := runtime_error (msg : str).

(** Lines 23-26: the module stops loading when a key is missing; otherwise
    the application is defined over the keys read. *)
Definition load (env : environment) : RuntimeError + environment :=
  if negb (bool_of (DEEPGRAM_API_KEY env)) then
    inl (runtime_error
           (10060%N :: lit " DEEPGRAM_API_KEY not set in .env file!"))
  else if negb (bool_of (GROQ_API_KEY env)) then
    inl (runtime_error (10060%N :: lit " GROQ_API_KEY not set in .env file!"))
  else inr env.

Record root_body := {
  message : str;
  deepgram_connected : bool;
  groq_connected : bool }.

(** GET /, over the keys of the loaded module. *)
Definition root (env : environment) : root_body :=
  {| message := lit "Voice Bot API is running";
     deepgram_connected := bool_of (DEEPGRAM_API_KEY env);
     groq_connected := bool_of (GROQ_API_KEY env) |}.

(** The two dictionaries that /test-tts returns. *)
Inductive test_tts_body :=
| test_passed (audio_size : nat)
| test_failed (error : str) (traceback : str).

(** Their key ["success"]. *)
Definition success (b : test_tts_body) : bool :=
  match b with
  | test_passed _ => true
  | test_failed _ _ => false
  end.

Section TestTts.
Variable W : Type.
Variable P : Server.providers W.
(** [traceback.format_exc()] for the exception caught, as a text that
    depends on it. *)
Variable format_exc : str -> str.

(** GET /test-tts. *)
Definition test_tts : Server.endpoint W test_tts_body :=
  try_except
    (audio <- Server.speak P (lit "Hello, this is a test message.") ;;
     ret (test_passed (length audio)))%eff
    (fun e => ret (test_failed e (format_exc e))).
End TestTts.

(** *** Vocabulary of the statements *)

(** The key ["success"] of a body of the four POST routes. *)
Definition body_success (b : Server.http_body) : bool :=
  match b with
  | Server.stt_json b => Server.stt_success b
  | Server.chat_json b => Server.chat_success b
  | Server.tts_json b => Server.tts_success b
  | Server.voice_json b => Server.voice_success b
  end.

(** The stage of the pipeline that a provider call belongs to. *)
Definition call_stage (c : Server.call) : nat :=
  match c with
  | Server.transcribe_file _ => 0
  | Server.completions_create _ _ => 1
  | Server.speak_save _ => 2
  end.

Definition has_returned (ev : Server.provider_event) : bool :=
  match snd ev with
  | Server.returned => true
  | Server.raised _ => false
  end.
End Service.

(** ** app.py: the session over successive runs *)

Module Page.
Import Eff Client.

Section Runs.
Variable W : Type.
Variable net : network W.

(** Streamlit runs the script again on every event, on the session state
    that the run before left. *)
Fixpoint runs (reruns : list inputs) (sw : session_state * W)
  : session_state * W :=
  match reruns with
  | [] => sw
  | i :: later => runs later (final (run net i sw))
  end.
End Runs.

(** *** Vocabulary of the statements *)

(** The requests among the events of a run, in order. *)
Definition requests_of (evs : list event) : list action :=
  filter is_request (List.map snd evs).

(** A display message without its audio. *)
Definition entry_of (m : display_message) : Api.chat_message :=
  {| Api.role := role m; Api.content := content m |}.

(** The two kinds of display message that the script appends. *)
Definition user_message (m : display_message) : bool :=
  str_eqb (role m) (lit "user")
  && truthy (content m)
  && match audio m with None => true | Some _ => false end.

Definition assistant_message (m : display_message) : bool :=
  str_eqb (role m) (lit "assistant")
  && and_strip (Some (content m))
  && match audio m with Some data => truthy data | None => false end.

(** What the chat container draws for one entry of the history: the chat
    message of its role, its content, and an audio player when it has a
    clip. *)
Definition drawn_entry (h : Api.chat_message) (clip : option bytes)
  : list action :=
  st_chat_message (Api.role h)
  :: st_markdown (Api.content h)
  :: match clip with
     | Some data => [st_audio data]
     | None => []
     end.

(** The clip that goes with an entry: none with a user entry, one that is
    not empty with an assistant entry. *)
Definition clip_fits (h : Api.chat_message) (clip : option bytes) : Prop :=
  match clip with
  | None => Api.role h = lit "user"
  | Some data => Api.role h = lit "assistant" /\ data <> []
  end.

(** The display messages and the conversation history tell the same
    conversation. *)
Definition in_step (s : session_state) : Prop :=
  List.map entry_of (messages s) = conversation_history s.

(** Every display message is of one of the two kinds. *)
Definition well_formed (s : session_state) : bool :=
  forallb (fun m => user_message m || assistant_message m) (messages s).

(** Every entry is a user's or the assistant's, and an assistant entry
    comes right after a user entry. *)
Definition replies_follow_users (l : list Api.chat_message) : Prop :=
  (forall h, In h l ->
             Api.role h = lit "user" \/ Api.role h = lit "assistant")
  /\ forall earlier a later,
       l = earlier ++ a :: later ->
       Api.role a = lit "assistant" ->
       exists before u,
         earlier = before ++ [u] /\ Api.role u = lit "user".

(** Session [s'] holds the conversation of [s] and what was appended to
    it since. *)
Definition extends (s s' : session_state) : Prop :=
  exists added,
    messages s' = messages s ++ added
    /\ conversation_history s'
       = conversation_history s ++ List.map entry_of added.

(** None of these runs clears the conversation. *)
Definition never_cleared (reruns : list inputs) : Prop :=
  Forall (fun i => clear_conversation i = false) reruns.
End Page.

Module Samples.
(** Keys as a deployment sets them, and a deployment that forgot one. *)
Definition keys_set : Service.environment :=
  {| Service.DEEPGRAM_API_KEY := Some (lit "dg-key");
     Service.GROQ_API_KEY := Some (lit "gsk-key") |}.

Definition groq_key_empty : Service.environment :=
  {| Service.DEEPGRAM_API_KEY := Some (lit "dg-key");
     Service.GROQ_API_KEY := Some [] |}.

(** Providers whose language model is down. *)
Definition providers_llm_down : Server.providers unit :=
  {| Server.dg_transcribe := fun _ w => (inr (lit "What is 2+2?"), w);
     Server.groq_complete := fun _ w => (inl (lit "rate limited"), w);
     Server.dg_speak := fun _ w => (inr [Byte.x49; Byte.x44; Byte.x33], w) |}.

(** A network on which the chat service answers with an error status. *)
Definition network_chat_down : Client.network unit :=
  {| Client.get_root := fun w => (Fixtures.ok Fixtures.connected, w);
     Client.post_speech_to_text :=
       fun _ w => (Fixtures.ok (Some (lit "What is 2+2?")), w);
     Client.post_chat := fun _ w => (Fixtures.failed, w);
     Client.post_text_to_speech :=
       fun _ w => (Fixtures.ok [Byte.x49; Byte.x44; Byte.x33], w) |}.

(** A network that cannot be reached. *)
Definition network_unreachable : Client.network unit :=
  {| Client.get_root := fun w => (inl (lit "Connection refused"), w);
     Client.post_speech_to_text := fun _ w => (inl (lit "Connection refused"), w);
     Client.post_chat := fun _ w => (inl (lit "Connection refused"), w);
     Client.post_text_to_speech := fun _ w => (inl (lit "Connection refused"), w) |}.

Definition clear : Client.inputs :=
  {| Client.clear_conversation := true;
     Client.audio_recorder := Some Fixtures.clip;
     Client.chat_input := None |}.

Definition nothing_new : Client.inputs :=
  {| Client.clear_conversation := false;
     Client.audio_recorder := Some [];
     Client.chat_input := Some [] |}.
End Samples.

(** * Properties *)

(** ** Facts about Python values *)

Lemma startswith_app (p s : str) : startswith p (p ++ s) = true.
Proof.
  induction p as [|a p IH]; simpl; [reflexivity|].
  now rewrite N.eqb_refl, IH.
Qed.

Lemma contains_startswith (p s : str) :
  startswith p s = true -> contains p s = true.
Proof. destruct s; simpl; intros ->; reflexivity. Qed.

Lemma slice_from_neg_length A (n : Z) (l : list A) :
  (0 < n)%Z -> (length (slice_from (- n) l) <= Z.to_nat n)%nat.
Proof.
  intros Hn. unfold slice_from.
  replace (- n <? 0)%Z with true by (symmetry; apply Z.ltb_lt; lia).
  rewrite length_skipn. lia.
Qed.

Lemma slice_from_suffix A (start : Z) (l : list A) :
  exists older, l = older ++ slice_from start l.
Proof.
  unfold slice_from. eexists. symmetry. apply firstn_skipn.
Qed.

Lemma slice_from_neg_last A (n : Z) (l : list A) (x : A) :
  (0 < n)%Z -> exists pre, slice_from (- n) (l ++ [x]) = pre ++ [x].
Proof.
  intros Hn. unfold slice_from.
  replace (- n <? 0)%Z with true by (symmetry; apply Z.ltb_lt; lia).
  rewrite length_app. simpl length.
  set (k := Z.to_nat _).
  assert (Hk : (k <= length l)%nat) by (unfold k; lia).
  exists (skipn k l).
  rewrite skipn_app.
  replace (k - length l)%nat with 0%nat by lia. reflexivity.
Qed.

Lemma strip_truthy_iff (s : str) :
  truthy (strip s) = false <-> forallb isspace s = true.
Proof.
  assert (L : forall t, lstrip t = [] <-> forallb isspace t = true).
  { induction t as [|c t IH]; simpl; [tauto|].
    destruct (isspace c); simpl; [exact IH|]. split; discriminate. }
  assert (T : forall t : str, truthy t = false <-> t = []).
  { destruct t; simpl; split; congruence. }
  rewrite T. unfold strip, rstrip.
  split.
  - intros H. apply (f_equal (@rev _)) in H. rewrite rev_involutive in H.
    simpl in H. apply L in H.
    rewrite forallb_forall in H.
    apply L. 
    assert (forall t, (forall x, In x (rev (lstrip t)) -> isspace x = true) ->
                      lstrip t = []) as K.
    { induction t as [|c t IH]; simpl; [reflexivity|].
      destruct (isspace c) eqn:E; [exact IH|].
      intros Hall. specialize (Hall c). rewrite <- in_rev in Hall.
      rewrite Hall in E by (left; reflexivity). discriminate. }
    apply K. exact H.
  - intros H. apply L in H. rewrite H. reflexivity.
Qed.

Lemma and_strip_whitespace (s : str) :
  forallb isspace s = true -> and_strip (Some s) = false.
Proof.
  intros H. simpl. apply strip_truthy_iff in H. rewrite H.
  apply andb_false_r.
Qed.

(** ** The definitions at work *)

Example strip_inner_spaces_kept :
  strip (lit "  What is 2+2?  ") = lit "What is 2+2?".
Proof. reflexivity. Qed.

Example blank_is_not_speech :
  and_strip (Some [32; 9; 10; 160; 8195]%N) = false
  /\ and_strip (Some []) = false
  /\ and_strip None = false
  /\ and_strip (Some (lit " ok")) = true.
Proof. repeat split. Qed.

Example slice_from_examples :
  slice_from (-2) [1; 2; 3]%nat = [2; 3]%nat
  /\ slice_from (-6) [1; 2; 3]%nat = [1; 2; 3]%nat
  /\ slice_from (-10) (@nil nat) = [].
Proof. repeat split. Qed.

Example chat_messages_of_nine :
  let entry n := {| Api.role := lit "user"; Api.content := [n] |} in
  Server.chat_messages
    {| Api.message := lit "hi";
       Api.conversation_history := map entry [1; 2; 3; 4; 5; 6; 7; 8; 9]%N |}
  = Server.system_chat
    :: map entry [4; 5; 6; 7; 8; 9]%N
    ++ [{| Api.role := lit "user"; Api.content := lit "hi" |}].
Proof. reflexivity. Qed.

Example voice_bot_answers :
  Eff.result (Server.app Fixtures.providers_up
                (Server.POST_voice Fixtures.clip) tt)
  = Eff.Return
      (Server.voice_json
         {| Server.user_text := lit "What is 2+2?";
            Server.bot_text := lit "Four.";
            Server.bot_audio := b64encode [Byte.x49; Byte.x44; Byte.x33];
            Server.audio_mime := lit "audio/mpeg";
            Server.voice_success := true |}).
Proof. reflexivity. Qed.

Example chat_down :
  Eff.result (Server.chat Fixtures.providers_down
                {| Api.message := lit "hi"; Api.conversation_history := [] |} tt)
  = Eff.Raise (Server.HTTPException 500 (lit "Error: timed out")).
Proof. reflexivity. Qed.

Example run_voice_answered :
  let x := Client.run Fixtures.network_up Fixtures.speak_clip
             (Client.initial_session_state, tt) in
  Eff.result x = Eff.Raise Client.RerunException
  /\ fst (Eff.final x)
     = {| Client.conversation_history :=
            [{| Api.role := lit "user"; Api.content := lit "What is 2+2?" |};
             {| Api.role := lit "assistant"; Api.content := lit "Four." |}];
          Client.messages :=
            [{| Client.role := lit "user";
                Client.content := lit "What is 2+2?";
                Client.audio := None |};
             {| Client.role := lit "assistant";
                Client.content := lit "Four.";
                Client.audio := Some [Byte.x49; Byte.x44; Byte.x33] |}];
          Client.processing := false;
          Client.last_audio_bytes := Some Fixtures.clip |}
  /\ map snd (Eff.events x)
     = [Client.requests_get_root;
        Client.st_success (9989%N :: lit " Backend Connected");
        Client.st_success (9989%N :: lit " Deepgram Connected");
        Client.st_success (9989%N :: lit " Groq Connected");
        Client.requests_post_speech_to_text Fixtures.clip;
        Client.st_success (9989%N :: lit " You said: What is 2+2?");
        Client.requests_post_chat
          {| Api.message := lit "What is 2+2?";
             Api.conversation_history :=
               [{| Api.role := lit "user";
                   Api.content := lit "What is 2+2?" |}] |};
        Client.requests_post_text_to_speech (lit "Four.");
        Client.st_success (9989%N :: lit " Response generated!");
        Client.st_markdown_audio [Byte.x49; Byte.x44; Byte.x33];
        Client.st_rerun].
Proof. repeat split. Qed.

Example run_text_mute :
  let x := Client.run Fixtures.network_mute (Fixtures.type_text (lit "hi"))
             (Client.initial_session_state, tt) in
  Eff.result x = Eff.Return tt
  /\ fst (Eff.final x)
     = Client.user_turn (lit "hi") Client.initial_session_state
  /\ map snd (Eff.events x)
     = [Client.requests_get_root;
        Client.st_success (9989%N :: lit " Backend Connected");
        Client.st_success (9989%N :: lit " Deepgram Connected");
        Client.st_success (9989%N :: lit " Groq Connected");
        Client.requests_post_chat
          {| Api.message := lit "hi";
             Api.conversation_history :=
               [{| Api.role := lit "user"; Api.content := lit "hi" |}] |};
        Client.requests_post_text_to_speech (lit "Four.");
        Client.st_error (lit "Text-to-speech error: Error: timed out");
        Client.failed_speech_audio].
Proof. repeat split. Qed.

Example run_while_processing :
  let s := Client.set_processing true Client.initial_session_state in
  Client.run Fixtures.network_up Fixtures.speak_clip (s, tt)
  = (Eff.Return tt, (s, tt),
     map (pair s)
       [Client.requests_get_root;
        Client.st_success (9989%N :: lit " Backend Connected");
        Client.st_success (9989%N :: lit " Deepgram Connected");
        Client.st_success (9989%N :: lit " Groq Connected");
        Client.st_info (lit "Processing... Please wait");
        Client.st_info
          (9203%N :: lit " Processing voice input... Text input disabled temporarily")]).
Proof. reflexivity. Qed.

(** A second run, after an answered turn, draws both messages and leaves
    the clip it has already processed alone. *)
Example run_after_voice_answered :
  let x := Client.run Fixtures.network_up Fixtures.speak_clip
             (Client.initial_session_state, tt) in
  let y := Client.run Fixtures.network_up Fixtures.speak_clip (Eff.final x) in
  Eff.result y = Eff.Return tt
  /\ Eff.final y = Eff.final x
  /\ map snd (Eff.events y)
     = [Client.requests_get_root;
        Client.st_success (9989%N :: lit " Backend Connected");
        Client.st_success (9989%N :: lit " Deepgram Connected");
        Client.st_success (9989%N :: lit " Groq Connected");
        Client.st_chat_message (lit "user");
        Client.st_markdown (lit "What is 2+2?");
        Client.st_chat_message (lit "assistant");
        Client.st_markdown (lit "Four.");
        Client.st_audio [Byte.x49; Byte.x44; Byte.x33]].
Proof. repeat split. Qed.

(** With the service unreachable the sidebar says so, and nothing else
    happens in a run without input. *)
Example run_offline :
  map snd (Eff.events (Client.run Samples.network_unreachable Samples.nothing_new
                         (Client.initial_session_state, tt)))
  = [Client.requests_get_root;
     Client.st_error (10060%N :: lit " Backend Offline");
     Client.st_info (lit "Make sure to run: python main.py")].
Proof. reflexivity. Qed.

(** ** The service *)

Section ServiceFacts.
Import Eff Server.
Variable W : Type.
Variable P : providers W.

Lemma recent_history_length request :
  (length (recent_history request) <= 6)%nat.
Proof.
  unfold recent_history.
  destruct (Nat.ltb_spec 6 (length (Api.conversation_history request))).
  - apply (@slice_from_neg_length _ 6). lia.
  - assumption.
Qed.

Lemma recent_history_suffix request :
  exists older, Api.conversation_history request = older ++ recent_history request.
Proof.
  unfold recent_history.
  destruct (6 <? _)%nat.
  - apply slice_from_suffix.
  - exists []. reflexivity.
Qed.

(** /chat makes one provider call, with the list [messages]. *)
Lemma chat_events request w :
  exists f,
    events (chat P request w)
    = [(completions_create (lit "llama-3.3-70b-versatile")
                           (chat_messages request), f)].
Proof.
  unfold chat, try_except, bind, complete, provider, events.
  destruct (groq_complete P (chat_messages request) w) as [[e|a] w'];
    simpl; eauto.
Qed.

(** The provider calls of /voice, in order. *)
Lemma voice_bot_events file w :
  events (voice_bot P file w)
  = match dg_transcribe P file w with
    | (inl e, _) => [(transcribe_file file, raised e)]
    | (inr user_text, w1) =>
        let messages :=
          [system_voice;
           {| Api.role := lit "user"; Api.content := user_text |}] in
        (transcribe_file file, returned)
        :: match groq_complete P messages w1 with
           | (inl e, _) =>
               [(completions_create (lit "llama-3.3-70b-versatile") messages,
                 raised e)]
           | (inr bot_text, w2) =>
               [(completions_create (lit "llama-3.3-70b-versatile") messages,
                 returned);
                (speak_save bot_text,
                 match dg_speak P bot_text w2 with
                 | (inl e, _) => raised e
                 | (inr _, _) => returned
                 end)]
           end
    end.
Proof.
  unfold voice_bot, try_except, bind, transcribe, complete, speak, provider,
    events.
  destruct (dg_transcribe P file w) as [[e|user_text] w1]; simpl;
    [reflexivity|].
  destruct (groq_complete P _ w1) as [[e|bot_text] w2]; simpl;
    [reflexivity|].
  destruct (dg_speak P bot_text w2) as [[e|clip] w3]; reflexivity.
Qed.

(** An endpoint whose provider call raised answers with the 500. *)
Lemma app_raised r w c e :
  In (c, raised e) (events (app P r w)) ->
  result (app P r w) = Raise (HTTPException 500 (lit "Error: " ++ e)).
Proof.
  destruct r as [audio|request|request|file];
    unfold app, map, speech_to_text_endpoint, chat, text_to_speech_endpoint,
      voice_bot, try_except, bind, transcribe, complete, speak, provider,
      except_500, raise, ret, events, result.
  - destruct (dg_transcribe P audio w) as [[e'|a] w']; simpl;
      intros [H|[]]; congruence.
  - destruct (groq_complete P _ w) as [[e'|a] w']; simpl;
      intros [H|[]]; congruence.
  - destruct (dg_speak P _ w) as [[e'|a] w']; simpl;
      intros [H|[]]; congruence.
  - destruct (dg_transcribe P file w) as [[e'|user_text] w1]; simpl;
      [intros [H|[]]; congruence|].
    destruct (groq_complete P _ w1) as [[e'|bot_text] w2]; simpl;
      [intros [H|[H|[]]]; congruence|].
    destruct (dg_speak P bot_text w2) as [[e'|clip] w3]; simpl;
      intros [H|[H|[H|[]]]]; congruence.
Qed.

(** No endpoint lets an exception of the program through. *)
Lemma app_no_raw_exception r w str_e :
  result (app P r w) <> Raise (Exception str_e).
Proof.
  destruct r as [audio|request|request|file];
    unfold app, map, speech_to_text_endpoint, chat, text_to_speech_endpoint,
      voice_bot, try_except, bind, transcribe, complete, speak, provider,
      except_500, raise, ret, events, result.
  - destruct (dg_transcribe P audio w) as [[e'|a] w']; simpl; congruence.
  - destruct (groq_complete P _ w) as [[e'|a] w']; simpl; congruence.
  - destruct (dg_speak P _ w) as [[e'|a] w']; simpl; congruence.
  - destruct (dg_transcribe P file w) as [[e'|user_text] w1]; simpl;
      [congruence|].
    destruct (groq_complete P _ w1) as [[e'|bot_text] w2]; simpl;
      [congruence|].
    destruct (dg_speak P bot_text w2) as [[e'|clip] w3]; simpl; congruence.
Qed.
End ServiceFacts.

(** ** The session controller *)

Section SessionFacts.
Import Eff Client.
Variable W : Type.
Variable net : network W.

Ltac crunch :=
  repeat match goal with
    | |- context [post_speech_to_text net ?a ?w] =>
        destruct (post_speech_to_text net a w) as [[?e|?resp] ?w] eqn:?
    | |- context [post_chat net ?a ?w] =>
        destruct (post_chat net a w) as [[?e|?resp] ?w] eqn:?
    | |- context [post_text_to_speech net ?a ?w] =>
        destruct (post_text_to_speech net a w) as [[?e|?resp] ?w] eqn:?
    | |- context [(status_code ?r =? 200)%Z] =>
        destruct (status_code r =? 200)%Z eqn:?
    | |- context [payload ?r] =>
        destruct (payload r) as [?e|?v] eqn:?
    | _ => progress cbn [fst snd app]
    end.

Ltac helper_run :=
  crunch; do 3 eexists; (split; [reflexivity|]);
  repeat constructor; simpl; eexists; (split; [reflexivity|reflexivity]).

(** Each helper makes its request, shows at most an error, and returns. *)
Lemma speech_to_text_run audio_bytes s w :
  exists t w1 errs,
    speech_to_text net audio_bytes (s, w)
    = (Return t, (s, w1),
       (s, requests_post_speech_to_text audio_bytes) :: errs)
    /\ Forall (reported s) errs.
Proof.
  unfold speech_to_text, try_except, bind, request, read, do, ret, raise.
  helper_run.
Qed.

Lemma get_ai_response_run u s w :
  exists r w1 errs,
    get_ai_response net u (s, w) = (Return r, (s, w1), chat_request u s :: errs)
    /\ Forall (reported s) errs.
Proof.
  unfold get_ai_response, try_except, bind, session, request, read, do, ret,
    raise, chat_request.
  helper_run.
Qed.

Lemma text_to_speech_run t s w :
  exists a w1 errs,
    text_to_speech net t (s, w)
    = (Return a, (s, w1), (s, requests_post_text_to_speech t) :: errs)
    /\ Forall (reported s) errs.
Proof.
  unfold text_to_speech, try_except, bind, request, read, do, ret, raise.
  helper_run.
Qed.

Lemma turn_run u s w :
  exists o s' w' evs,
    turn net u (s, w) = (o, (s', w'), evs) /\ turn_end u s o s' evs.
Proof.
  unfold turn.
  unfold bind at 1. unfold update at 1. cbn [fst snd].
  unfold bind at 1. unfold update at 1. cbn [fst snd app].
  fold (user_turn u s).
  unfold bind at 1.
  destruct (get_ai_response_run u (user_turn u s) w) as (r & w1 & errs & E & F).
  rewrite E.
  destruct (and_strip r) eqn:Hr.
  - destruct r as [reply|]; [|discriminate].
    unfold bind at 1.
    destruct (text_to_speech_run reply (user_turn u s) w1)
      as (a & w2 & errs' & E' & F').
    rewrite E'.
    destruct a as [[|b clip]|].
    + do 4 eexists. split; [reflexivity|].
      apply synthesis_failed with (reply := reply); assumption.
    + do 4 eexists. split; [reflexivity|].
      cbn [fst snd]. apply answered; auto.
    + do 4 eexists. split; [reflexivity|].
      apply synthesis_failed with (reply := reply); assumption.
  - do 4 eexists. split; [reflexivity|].
    apply chat_failed; assumption.
Qed.

(** A reported error is none of the pipeline's own signals or requests. *)
Lemma reported_inv s ev :
  reported s ev ->
  fst ev = s
  /\ is_request (snd ev) = false
  /\ snd ev <> failed_speech_audio
  /\ snd ev <> failed_ai_response
  /\ snd ev <> no_speech_detected
  /\ snd ev <> st_rerun.
Proof.
  intros [Hs (b & Hb & Hp)]. rewrite Hb.
  repeat split; try assumption; try discriminate.
  - intros H. inversion H. subst b. vm_compute in Hp. discriminate.
  - intros H. inversion H. subst b. vm_compute in Hp. discriminate.
Qed.

Ltac break_in :=
  repeat match goal with
    | H : In _ (_ ++ _) |- _ => apply in_app_or in H; destruct H as [H|H]
    | H : In _ (_ :: _) |- _ => destruct H as [H|H]
    | H : In _ [] |- _ => destruct H
    | F : Forall (reported ?s) ?l, H : In ?ev ?l |- _ =>
        let R := fresh "R" in
        pose proof (reported_inv (proj1 (Forall_forall _ _) F _ H)) as R;
        clear H; destruct R as (? & ? & ? & ? & ? & ?)
    end.

(** What holds of every event of a turn and of the session it leaves. *)
Lemma turn_end_facts u s o s' evs :
  turn_end u s o s' evs ->
  processing s' = false
  /\ last_audio_bytes s' = last_audio_bytes s
  /\ In (chat_request u (user_turn u s)) evs
  /\ (forall ev, In ev evs ->
        last_audio_bytes (fst ev) = last_audio_bytes s
        /\ snd ev <> no_speech_detected
        /\ (forall a, snd ev <> requests_post_speech_to_text a)
        /\ (snd ev <> st_rerun -> processing (fst ev) = processing s)
        /\ (is_request (snd ev) = true -> fst ev = user_turn u s)
        /\ (forall data, snd ev = requests_post_chat data ->
              ev = chat_request u (user_turn u s))
        /\ (snd ev = failed_speech_audio ->
              o = Return tt /\ s' = set_processing false (user_turn u s))).
Proof.
  intros H. destruct H; (split; [reflexivity|]); (split; [reflexivity|]);
    (split; [left; reflexivity|]); intros ev Hev; break_in; subst;
    unfold chat_request in *; cbn [fst snd] in *;
    repeat split; try reflexivity; try discriminate; try congruence;
    try (intros; discriminate); try (intros; congruence);
    try (destruct ev as [s0 a0]; cbn [fst snd] in *; subst;
         intros; subst; first [reflexivity | discriminate | congruence]);
    try (intros a E; rewrite E in *; discriminate).
Qed.

Lemma voice_turn_run audio_bytes s w :
  exists t w1 evs1 o s' w' evs,
    speech_to_text net audio_bytes (voice_turn_start audio_bytes s, w)
    = (Return t, (voice_turn_start audio_bytes s, w1), evs1)
    /\ voice_turn net audio_bytes (s, w) = (o, (s', w'), evs)
    /\ voice_turn_end audio_bytes s t o s' evs.
Proof.
  unfold voice_turn.
  unfold bind at 1. unfold update at 1. cbn [fst snd].
  unfold bind at 1. unfold update at 1. cbn [fst snd app].
  fold (voice_turn_start audio_bytes s).
  unfold bind at 1.
  destruct (speech_to_text_run audio_bytes (voice_turn_start audio_bytes s) w)
    as (t & w1 & errs & E & F).
  rewrite E. exists t, w1. eexists.
  destruct (and_strip t) eqn:Ht.
  - destruct t as [said|]; [|discriminate].
    unfold bind at 1. unfold do at 1. cbn [fst snd].
    destruct (turn_run said (voice_turn_start audio_bytes s) w1)
      as (o & s' & w' & evs & E' & T).
    rewrite E'. cbn [app].
    exists o, s', w'. eexists.
    split; [reflexivity|]. split; [reflexivity|].
    apply heard; assumption.
  - do 4 eexists.
    split; [reflexivity|]. split; [reflexivity|].
    cbn [fst snd]. apply nothing_heard; assumption.
Qed.

Lemma text_turn_run u s w :
  text_turn net u (s, w) = turn net u (set_processing true s, w).
Proof.
  unfold text_turn, bind, update. cbn [fst snd].
  destruct (turn net u (set_processing true s, w)) as [[o sw] evs].
  destruct o; reflexivity.
Qed.

(** What holds of every event of a voice turn and of the session it
    leaves. *)
Lemma voice_turn_end_facts audio_bytes s t o s' evs :
  voice_turn_end audio_bytes s t o s' evs ->
  processing s' = false
  /\ In (voice_turn_start audio_bytes s,
         requests_post_speech_to_text audio_bytes) evs
  /\ last_audio_bytes s'
     = (if and_strip t then Some audio_bytes else None)
  /\ (and_strip t = false ->
        o = Return tt
        /\ messages s' = messages s
        /\ conversation_history s' = conversation_history s
        /\ In (voice_turn_start audio_bytes s, no_speech_detected) evs
        /\ forall ev, In ev evs ->
             is_request (snd ev) = true ->
             snd ev = requests_post_speech_to_text audio_bytes)
  /\ (forall ev, In ev evs ->
        last_audio_bytes (fst ev) = Some audio_bytes
        /\ (snd ev <> st_rerun -> processing (fst ev) = true)
        /\ (snd ev = no_speech_detected -> and_strip t = false)
        /\ (forall data, snd ev = requests_post_chat data ->
              exists said,
                ev = chat_request said
                       (user_turn said (voice_turn_start audio_bytes s)))
        /\ (snd ev = failed_speech_audio ->
              exists said,
                o = Return tt
                /\ s' = set_processing false
                          (user_turn said (voice_turn_start audio_bytes s)))).
Proof.
  intros H. destruct H as [t errs Ht F|said errs o s' evs Ht F T].
  - rewrite Ht.
    split; [reflexivity|]. split; [left; reflexivity|].
    split; [reflexivity|]. split.
    + intros _. repeat split; try reflexivity.
      * right. apply in_or_app. right. left. reflexivity.
      * intros ev Hev a. break_in; subst; cbn [fst snd] in *;
          first [reflexivity | congruence | discriminate a].
    + intros ev Hev. break_in; subst; cbn [fst snd];
        repeat split; try reflexivity; try discriminate; try congruence;
        try (intros; discriminate);
        try (destruct ev as [s0 a0]; cbn [fst snd] in *; subst;
             intros; subst; first [reflexivity | discriminate | congruence]);
        try (intros a E; rewrite E in *; discriminate).
  - rewrite Ht.
    destruct (turn_end_facts T) as (P1 & P2 & P3 & P4).
    split; [exact P1|]. split; [left; reflexivity|].
    split; [exact P2|]. split; [congruence|].
    intros ev Hev. destruct Hev as [Hev|Hev].
    { subst; cbn [fst snd]; repeat split; try reflexivity;
        intros; discriminate. }
    apply in_app_or in Hev. destruct Hev as [Hev|Hev].
    { break_in. destruct ev as [s0 a0]; cbn [fst snd] in *; subst.
      repeat split; try reflexivity; try congruence;
        try (intros a E; rewrite E in *; discriminate). }
    destruct Hev as [Hev|Hev].
    { subst; cbn [fst snd]; repeat split; try reflexivity;
        intros; discriminate. }
    destruct (P4 ev Hev) as (Q1 & Q2 & Q3 & Q4 & Q5 & Q6 & Q7).
    repeat split.
    + exact Q1.
    + exact Q4.
    + intros E. contradiction.
    + intros data E. exists said. eapply Q6. exact E.
    + intros E. exists said. apply Q7. exact E.
Qed.

Lemma bind_run A B (m : script W A) (k : A -> script W B) sw :
  bind m k sw
  = match m sw with
    | (Return a, sw1, t1) =>
        (result (k a sw1), final (k a sw1), t1 ++ events (k a sw1))
    | (Raise e, sw1, t1) => (Raise e, sw1, t1)
    end.
Proof.
  unfold bind. destruct (m sw) as [[[a|e] sw1] t1]; [|reflexivity].
  destruct (k a sw1) as [[r sw2] t2]. reflexivity.
Qed.

(** The guard of the voice turn. *)
Lemma voice_input_run recorded s w :
  voice_input net recorded (s, w)
  = if processing s then
      (Return tt, (s, w), [(s, st_info (lit "Processing... Please wait"))])
    else
      match recorded with
      | Some audio_bytes =>
          if truthy audio_bytes then
            if opt_bytes_eq_dec (last_audio_bytes s) (Some audio_bytes)
            then ret tt (s, w)
            else voice_turn net audio_bytes (s, w)
          else ret tt (s, w)
      | None => ret tt (s, w)
      end.
Proof.
  unfold voice_input, bind, session, do, ret. cbn [fst snd].
  destruct (processing s) eqn:Hp; cbn [negb fst snd app]; [reflexivity|].
  destruct recorded as [audio_bytes|]; [|reflexivity].
  rewrite Hp. cbn [negb]. rewrite andb_true_r.
  destruct (truthy audio_bytes); [|reflexivity].
  destruct (opt_bytes_eq_dec _ _); [reflexivity|].
  destruct (voice_turn net audio_bytes (s, w)) as [[o sw] evs].
  reflexivity.
Qed.

(** The guard of the text turn. *)
Lemma text_input_run typed s w :
  text_input net typed (s, w)
  = if processing s then
      (Return tt, (s, w),
       [(s, st_info (9203%N :: lit " Processing voice input... Text input disabled temporarily"))])
    else
      match typed with
      | Some u => if truthy u then text_turn net u (s, w) else ret tt (s, w)
      | None => ret tt (s, w)
      end.
Proof.
  unfold text_input, bind, session, do, ret. cbn [fst snd].
  destruct (processing s) eqn:Hp; cbn [negb fst snd app]; [reflexivity|].
  destruct typed as [u|]; [|reflexivity].
  destruct (truthy u); [|reflexivity].
  destruct (text_turn net u (s, w)) as [[o sw] evs].
  reflexivity.
Qed.

(** The status check makes its request, shows some of its messages, and
    returns; the session is as it was. *)
Lemma status_check_run s w :
  exists shown,
    status_check net (s, w)
    = (Return tt, (s, snd (get_root net w)),
       (s, requests_get_root) :: List.map (pair s) shown)
    /\ incl shown status_messages.
Proof.
  unfold status_check, try_except, bind, request, read, do, ret, raise.
  cbn [fst snd].
  assert (In1 : forall a : action,
             In a status_messages -> incl [a] status_messages).
  { intros a Ha x [<-|[]]. exact Ha. }
  assert (In2 : forall a b : action,
             In a status_messages -> In b status_messages ->
             incl [a; b] status_messages).
  { intros a b Ha Hb x [<-|[<-|[]]]; assumption. }
  assert (In3 : forall a b c : action,
             In a status_messages -> In b status_messages ->
             In c status_messages -> incl [a; b; c] status_messages).
  { intros a b c Ha Hb Hc x [<-|[<-|[<-|[]]]]; assumption. }
  destruct (get_root net w) as [[e|response] w1]; cbn [fst snd app].
  - eexists [_; _]. split; [reflexivity|].
    apply In2; unfold status_messages; cbn [In]; tauto.
  - destruct (status_code response =? 200)%Z; cbn [fst snd app].
    + destruct (payload response) as [e|data]; cbn [fst snd app].
      * eexists [_; _; _]. split; [reflexivity|].
        apply In3; unfold status_messages; cbn [In]; tauto.
      * destruct (deepgram_connected data), (groq_connected data);
          cbn [fst snd app].
        -- eexists [_; _; _]. split; [reflexivity|].
           apply In3; unfold status_messages; cbn [In]; tauto.
        -- eexists [_; _]. split; [reflexivity|].
           apply In2; unfold status_messages; cbn [In]; tauto.
        -- eexists [_; _]. split; [reflexivity|].
           apply In2; unfold status_messages; cbn [In]; tauto.
        -- eexists [_]. split; [reflexivity|].
           apply In1; unfold status_messages; cbn [In]; tauto.
    + eexists [_]. split; [reflexivity|].
      apply In1; unfold status_messages; cbn [In]; tauto.
Qed.

Lemma show_run msg s (w : W) :
  show msg (s, w) = (Return tt, (s, w), List.map (pair s) (drawing msg)).
Proof.
  unfold show, drawing, bind, do, ret. cbn [fst snd app].
  destruct (str_eqb (role msg) (lit "assistant")); [|reflexivity].
  destruct (audio msg) as [data|]; reflexivity.
Qed.

(** The chat container draws each message in turn, and does nothing
    else. *)
Lemma show_all_run msgs s (w : W) :
  show_all msgs (s, w)
  = (Return tt, (s, w), List.map (pair s) (flat_map drawing msgs)).
Proof.
  induction msgs as [|msg later IH]; [reflexivity|].
  cbn [show_all flat_map]. rewrite bind_run, show_run.
  cbn [result final events]. rewrite IH.
  cbn [result final events]. rewrite map_app. reflexivity.
Qed.

Lemma chat_container_run s (w : W) :
  chat_container (s, w)
  = (Return tt, (s, w), List.map (pair s) (flat_map drawing (messages s))).
Proof.
  unfold chat_container. rewrite bind_run. unfold session at 1.
  cbn [fst snd app]. rewrite show_all_run. reflexivity.
Qed.

Lemma drawing_is_drawing msgs :
  forallb is_drawing (flat_map drawing msgs) = true.
Proof.
  induction msgs as [|msg later IH]; [reflexivity|].
  cbn [flat_map]. rewrite forallb_app, IH. unfold drawing.
  destruct (str_eqb _ _); [|reflexivity].
  destruct (audio msg); reflexivity.
Qed.

(** A run that is not cleared checks the backend, draws the conversation
    it found, and goes on to the inputs. *)
Lemma run_run i s w :
  run net i (s, w)
  = if clear_conversation i then
      (Raise RerunException, (initial_session_state, w),
       [(initial_session_state, st_rerun)])
    else
      let turns :=
        bind (voice_input net (audio_recorder i))
             (fun _ => text_input net (chat_input i))
             (s, snd (get_root net w)) in
      (result turns, final turns,
       events (status_check net (s, w))
       ++ List.map (pair s) (flat_map drawing (messages s))
       ++ events turns).
Proof.
  unfold run. rewrite bind_run. unfold sidebar.
  destruct (clear_conversation i).
  - reflexivity.
  - unfold ret at 1. cbn [fst snd result final events app].
    rewrite bind_run.
    destruct (status_check_run s w) as (shown & E & _). rewrite E.
    cbn [fst snd result final events].
    rewrite bind_run, chat_container_run.
    cbn [fst snd result final events].
    destruct (bind _ _ _) as [[o sw] evs].
    reflexivity.
Qed.

(** What the page shows above the inputs does not depend on the turn. *)
Lemma run_page i s w :
  clear_conversation i = false ->
  exists w1 page,
    Forall (page_event s) page
    /\ run net i (s, w)
       = let turns :=
           bind (voice_input net (audio_recorder i))
                (fun _ => text_input net (chat_input i)) (s, w1) in
         (result turns, final turns, page ++ events turns).
Proof.
  intros Hc. rewrite run_run, Hc.
  destruct (status_check_run s w) as (shown & E & F). rewrite E.
  cbn [result final events fst snd].
  exists (snd (get_root net w)),
    ((s, requests_get_root)
     :: List.map (pair s) shown
     ++ List.map (pair s) (flat_map drawing (messages s))).
  split.
  - constructor; [split; [reflexivity|left; reflexivity]|].
    apply Forall_app. split.
    + apply Forall_forall. intros ev Hev. apply in_map_iff in Hev.
      destruct Hev as (a & <- & Ha). split; [reflexivity|].
      right. left. apply F. exact Ha.
    + apply Forall_forall. intros ev Hev. apply in_map_iff in Hev.
      destruct Hev as (a & <- & Ha). split; [reflexivity|].
      right. right. cbn [snd].
      pose proof (drawing_is_drawing (messages s)) as D.
      rewrite forallb_forall in D. apply D. exact Ha.
  - cbv zeta. cbn [app]. rewrite app_assoc. reflexivity.
Qed.

(** A page event is no request or signal of the pipeline. *)
Lemma page_event_inv s ev :
  page_event s ev ->
  fst ev = s
  /\ is_request (snd ev) = false
  /\ snd ev <> failed_speech_audio
  /\ snd ev <> failed_ai_response
  /\ snd ev <> no_speech_detected
  /\ snd ev <> st_rerun
  /\ snd ev <> st_info (lit "Processing... Please wait").
Proof.
  intros [Hs H]. split; [exact Hs|].
  destruct H as [H|[H|H]].
  - rewrite H. repeat split; discriminate.
  - unfold status_messages in H. cbn [In] in H.
    decompose [or] H; try contradiction;
      match goal with E : _ = snd ev |- _ => rewrite <- E end;
      repeat split; discriminate.
  - destruct (snd ev); try discriminate; repeat split; discriminate.
Qed.

(** What holds of every event of a text turn and of the session it
    leaves. *)
Lemma text_turn_facts u s w :
  processing (fst (final (text_turn net u (s, w)))) = false
  /\ last_audio_bytes (fst (final (text_turn net u (s, w))))
     = last_audio_bytes s
  /\ In (chat_request u (user_turn u (set_processing true s)))
        (events (text_turn net u (s, w)))
  /\ forall ev, In ev (events (text_turn net u (s, w))) ->
       last_audio_bytes (fst ev) = last_audio_bytes s
       /\ snd ev <> no_speech_detected
       /\ (forall a, snd ev <> requests_post_speech_to_text a)
       /\ (snd ev <> st_rerun -> processing (fst ev) = true)
       /\ (forall data, snd ev = requests_post_chat data ->
             ev = chat_request u (user_turn u (set_processing true s)))
       /\ (snd ev = failed_speech_audio ->
             result (text_turn net u (s, w)) = Return tt
             /\ fst (final (text_turn net u (s, w)))
                = set_processing false
                    (user_turn u (set_processing true s))).
Proof.
  rewrite text_turn_run.
  destruct (turn_run u (set_processing true s) w)
    as (o & s' & w' & evs & E & T).
  rewrite E. cbn [fst snd result final events].
  destruct (turn_end_facts T) as (P1 & P2 & P3 & P4).
  split; [exact P1|]. split; [exact P2|]. split; [exact P3|].
  intros ev Hev.
  destruct (P4 ev Hev) as (Q1 & Q2 & Q3 & Q4 & Q5 & Q6 & Q7).
  repeat split; try assumption; apply Q7; assumption.
Qed.

Lemma voice_input_idle recorded s w :
  processing s = false ->
  processing (fst (final (voice_input net recorded (s, w)))) = false.
Proof.
  intros Hp. rewrite voice_input_run, Hp.
  destruct recorded as [audio_bytes|]; [|exact Hp].
  destruct (truthy audio_bytes); [|exact Hp].
  destruct (opt_bytes_eq_dec _ _); [exact Hp|].
  destruct (voice_turn_run audio_bytes s w)
    as (t & w1 & evs1 & o & s' & w' & evs & _ & E & T).
  rewrite E. apply (voice_turn_end_facts T).
Qed.

Lemma text_input_idle typed s w :
  processing s = false ->
  processing (fst (final (text_input net typed (s, w)))) = false
  /\ last_audio_bytes (fst (final (text_input net typed (s, w))))
     = last_audio_bytes s.
Proof.
  intros Hp. rewrite text_input_run, Hp.
  destruct typed as [u|]; [|split; [exact Hp|reflexivity]].
  destruct (truthy u); [|split; [exact Hp|reflexivity]].
  split; apply text_turn_facts.
Qed.

(** A turn, by what its two stages return. *)
Lemma turn_stages u s w :
  let s1 := user_turn u s in
  let chat := get_ai_response net u (s1, w) in
  exists r,
    result chat = Return r
    /\ turn net u (s, w)
       = if and_strip r then
           let reply := match r with Some t => t | None => [] end in
           let speech := text_to_speech net reply (s1, snd (final chat)) in
           match result speech with
           | Return (Some ((_ :: _) as clip)) =>
               (Raise RerunException,
                (set_processing false (assistant_turn reply clip s1),
                 snd (final speech)),
                events chat ++ events speech
                ++ [(assistant_turn reply clip s1,
                     st_success (9989%N :: lit " Response generated!"));
                    (assistant_turn reply clip s1, st_markdown_audio clip);
                    (set_processing false (assistant_turn reply clip s1),
                     st_rerun)])
           | _ =>
               (Return tt, (set_processing false s1, snd (final speech)),
                events chat ++ events speech ++ [(s1, failed_speech_audio)])
           end
         else
           (Return tt, (set_processing false s1, snd (final chat)),
            events chat ++ [(s1, failed_ai_response)]).
Proof.
  cbv zeta. unfold turn.
  unfold bind at 1. unfold update at 1. cbn [fst snd].
  unfold bind at 1. unfold update at 1. cbn [fst snd app].
  fold (user_turn u s).
  unfold bind at 1.
  destruct (get_ai_response_run u (user_turn u s) w) as (r & w1 & errs & E & F).
  rewrite E. exists r. split; [reflexivity|].
  cbn [result final events fst snd].
  destruct (and_strip r) eqn:Hr.
  - destruct r as [reply|]; [|discriminate].
    unfold bind at 1.
    destruct (text_to_speech_run reply (user_turn u s) w1)
      as (a & w2 & errs' & E' & F').
    rewrite E'. cbn [result final events fst snd].
    destruct a as [[|b clip]|]; cbn [app]; rewrite <- ?app_assoc;
      reflexivity.
  - reflexivity.
Qed.

(** A voice turn, by what transcription returns. *)
Lemma voice_turn_stages audio_bytes s w :
  let s0 := voice_turn_start audio_bytes s in
  let heard := speech_to_text net audio_bytes (s0, w) in
  exists t,
    result heard = Return t
    /\ voice_turn net audio_bytes (s, w)
       = if and_strip t then
           let said := match t with Some x => x | None => [] end in
           let rest := turn net said (s0, snd (final heard)) in
           (result rest, final rest,
            events heard
            ++ (s0, st_success (9989%N :: lit " You said: " ++ said))
            :: events rest)
         else
           (Return tt,
            (set_last_audio_bytes None (set_processing false s0),
             snd (final heard)),
            events heard ++ [(s0, no_speech_detected)]).
Proof.
  cbv zeta. unfold voice_turn.
  unfold bind at 1. unfold update at 1. cbn [fst snd].
  unfold bind at 1. unfold update at 1. cbn [fst snd app].
  fold (voice_turn_start audio_bytes s).
  unfold bind at 1.
  destruct (speech_to_text_run audio_bytes (voice_turn_start audio_bytes s) w)
    as (t & w1 & errs & E & F).
  rewrite E. exists t. split; [reflexivity|].
  cbn [result final events fst snd].
  destruct (and_strip t) eqn:Ht.
  - destruct t as [said|]; [|discriminate].
    unfold bind at 1. unfold do at 1. cbn [fst snd].
    destruct (turn net said (voice_turn_start audio_bytes s, w1))
      as [[o sw] evs].
    reflexivity.
  - reflexivity.
Qed.

(** Where an event of a run comes from. *)
Lemma run_event i s w ev :
  In ev (events (run net i (s, w))) ->
  (clear_conversation i = true /\ ev = (initial_session_state, st_rerun))
  \/ (clear_conversation i = false /\ page_event s ev)
  \/ (clear_conversation i = false /\ processing s = true
      /\ fst ev = s /\ exists b, snd ev = st_info b)
  \/ (clear_conversation i = false /\ processing s = false
      /\ exists audio_bytes w1,
           audio_recorder i = Some audio_bytes
           /\ truthy audio_bytes = true
           /\ last_audio_bytes s <> Some audio_bytes
           /\ In ev (events (voice_turn net audio_bytes (s, w1))))
  \/ (clear_conversation i = false /\ processing s = false
      /\ exists u s' w',
           chat_input i = Some u
           /\ truthy u = true
           /\ processing s' = false
           /\ In ev (events (text_turn net u (s', w')))).
Proof.
  destruct (clear_conversation i) eqn:Hc.
  { rewrite run_run, Hc. intros [H|[]]. left. auto. }
  destruct (run_page i s w Hc) as (w1 & page & Hpage & E).
  rewrite E. cbv zeta. cbn [events snd].
  intros H. right.
  apply in_app_or in H. destruct H as [H|H].
  { left. split; [reflexivity|].
    apply (proj1 (Forall_forall _ _) Hpage). exact H. }
  right.
  rewrite bind_run in H.
  destruct (processing s) eqn:Hp.
  - left. rewrite voice_input_run, Hp in H. cbn [events snd] in H.
    rewrite text_input_run, Hp in H. cbn [events snd app] in H.
    destruct H as [H|[H|[]]]; subst ev; cbn [fst snd]; eauto 6.
  - right.
    pose proof (@voice_input_idle (audio_recorder i) s w1 Hp) as Hidle.
    assert (Hvoice : forall ev, In ev (events (voice_input net (audio_recorder i) (s, w1))) ->
              exists audio_bytes w1,
                audio_recorder i = Some audio_bytes
                /\ truthy audio_bytes = true
                /\ last_audio_bytes s <> Some audio_bytes
                /\ In ev (events (voice_turn net audio_bytes (s, w1)))).
    { intros ev'. rewrite voice_input_run, Hp.
      destruct (audio_recorder i) as [audio_bytes|]; [|intros []].
      destruct (truthy audio_bytes) eqn:Ht; [|intros []].
      destruct (opt_bytes_eq_dec _ _); [intros []|].
      intros Hin. exists audio_bytes, w1. auto. }
    destruct (voice_input net (audio_recorder i) (s, w1))
      as [[[[]|e] [s1 w2]] evs1] eqn:Ev; cbn [events snd] in H.
    + cbn [fst snd final] in Hidle.
      apply in_app_or in H. destruct H as [H|H].
      * left. split; [reflexivity|]. split; [reflexivity|].
        apply Hvoice. exact H.
      * right. split; [reflexivity|]. split; [reflexivity|].
        rewrite text_input_run, Hidle in H.
        destruct (chat_input i) as [u|]; [|destruct H].
        destruct (truthy u) eqn:Hu; [|destruct H].
        exists u, s1, w2. auto.
    + left. split; [reflexivity|]. split; [reflexivity|].
      apply Hvoice. exact H.
Qed.

Lemma run_idle i s w :
  processing s = false ->
  processing (fst (final (run net i (s, w)))) = false.
Proof.
  intros Hp.
  destruct (clear_conversation i) eqn:Hc.
  { rewrite run_run, Hc. reflexivity. }
  destruct (run_page i s w Hc) as (w1 & page & _ & E).
  rewrite E. cbv zeta. cbn [final fst snd].
  rewrite bind_run.
  pose proof (@voice_input_idle (audio_recorder i) s w1 Hp) as Hidle.
  destruct (voice_input net (audio_recorder i) (s, w1))
    as [[[[]|e] [s1 w2]] evs1]; cbn [fst snd final] in *.
  - apply text_input_idle. exact Hidle.
  - exact Hidle.
Qed.

(** Nothing but the chat container draws messages. *)
Lemma reported_draws_nothing s errs ev :
  Forall (reported s) errs -> In ev errs -> is_drawing (snd ev) = false.
Proof.
  intros F H. rewrite Forall_forall in F.
  destruct (F ev H) as [_ (b & Hb & _)]. rewrite Hb. reflexivity.
Qed.

Ltac each_event :=
  repeat match goal with
    | H : In _ (_ ++ _) |- _ => apply in_app_or in H; destruct H as [H|H]
    | H : In _ (_ :: _) |- _ => destruct H as [H|H]
    | H : In _ [] |- _ => destruct H
    end.

Lemma turn_end_draws_nothing u s o s' evs ev :
  turn_end u s o s' evs -> In ev evs -> is_drawing (snd ev) = false.
Proof.
  intros T Hev. destruct T; each_event; subst; try reflexivity;
    match goal with
    | F : Forall _ ?l, H : In _ ?l |- _ => exact (reported_draws_nothing _ F H)
    end.
Qed.

Lemma voice_turn_end_draws_nothing audio_bytes s t o s' evs ev :
  voice_turn_end audio_bytes s t o s' evs -> In ev evs ->
  is_drawing (snd ev) = false.
Proof.
  intros T Hev. destruct T as [t errs Ht F|said errs o s' evs Ht F T];
    each_event; subst; try reflexivity;
    match goal with
    | F : Forall _ ?l, H : In _ ?l |- _ => exact (reported_draws_nothing _ F H)
    | F : turn_end _ _ _ _ ?l, H : In _ ?l |- _ =>
        exact (turn_end_draws_nothing _ F H)
    end.
Qed.

Lemma inputs_draw_nothing i s w ev :
  In ev (events (bind (voice_input net (audio_recorder i))
                      (fun _ => text_input net (chat_input i)) (s, w))) ->
  is_drawing (snd ev) = false.
Proof.
  assert (V : forall recorded s w ev,
             In ev (events (voice_input net recorded (s, w))) ->
             is_drawing (snd ev) = false).
  { clear. intros recorded s w ev H. rewrite voice_input_run in H.
    destruct (processing s).
    { destruct H as [<-|[]]. reflexivity. }
    destruct recorded as [audio_bytes|]; [|destruct H].
    destruct (truthy audio_bytes); [|destruct H].
    destruct (opt_bytes_eq_dec _ _); [destruct H|].
    destruct (voice_turn_run audio_bytes s w)
      as (t & w1 & evs1 & o & s' & w' & evs & _ & E & T).
    rewrite E in H. eapply voice_turn_end_draws_nothing; eassumption. }
  assert (T : forall typed s w ev,
             In ev (events (text_input net typed (s, w))) ->
             is_drawing (snd ev) = false).
  { clear. intros typed s w ev H. rewrite text_input_run in H.
    destruct (processing s).
    { destruct H as [<-|[]]. reflexivity. }
    destruct typed as [u|]; [|destruct H].
    destruct (truthy u); [|destruct H].
    rewrite text_turn_run in H.
    destruct (turn_run u (set_processing true s) w)
      as (o & s' & w' & evs & E & T).
    rewrite E in H. eapply turn_end_draws_nothing; eassumption. }
  intros H. rewrite bind_run in H.
  destruct (voice_input net (audio_recorder i) (s, w))
    as [[[[]|e] [s1 w1]] evs1] eqn:Ev; cbn [events snd] in H.
  - apply in_app_or in H. destruct H as [H|H].
    + apply (V (audio_recorder i) s w). rewrite Ev. exact H.
    + apply (T (chat_input i) s1 w1). exact H.
  - apply (V (audio_recorder i) s w). rewrite Ev. exact H.
Qed.
End SessionFacts.

(** ** Properties of the specification *)

(** Every chat request of a run is the one [get_ai_response] builds right
    after the user turn was appended, in a session that is processing. *)
Lemma run_chat_request W (net : Client.network W) i s w s0 data :
  In (s0, Client.requests_post_chat data) (Eff.events (Client.run net i (s, w))) ->
  exists u s1,
    (s0, Client.requests_post_chat data)
    = Client.chat_request u (Client.user_turn u s1).
Proof.
  intros H. apply run_event in H.
  destruct H
    as [[_ H]|[[_ H]|[(_ & _ & _ & b & H)|[(_ & _ & H)|(_ & _ & H)]]]].
  - discriminate.
  - destruct H as [_ [H|[H|H]]]; cbn [snd] in H; try discriminate.
    unfold Client.status_messages in H. cbn [In] in H.
    decompose [or] H; try contradiction; discriminate.
  - discriminate.
  - destruct H as (audio_bytes & w0 & _ & _ & _ & H).
    destruct (voice_turn_run net audio_bytes s w0)
      as (t & w1 & evs1 & o & s' & w' & evs & _ & E & T).
    rewrite E in H. cbn [Eff.events snd] in H.
    destruct (voice_turn_end_facts T) as (_ & _ & _ & _ & F).
    destruct (F _ H) as (_ & _ & _ & Q & _).
    destruct (Q data eq_refl) as (said & Hs). eauto.
  - destruct H as (u & s' & w' & _ & _ & _ & H).
    destruct (text_turn_facts net u s' w') as (_ & _ & _ & F).
    destruct (F _ H) as (_ & _ & _ & _ & Q & _).
    exists u. eexists. apply Q with data. reflexivity.
Qed.

(** C1: the history that /chat places in the provider request, between
    the system instruction and the final user message, is a suffix of the
    supplied history with at most 6 entries, however many were supplied; and
    every /chat request of the client carries the last entries of its own
    history, at most 10 of them. *)
Theorem chat_history_bounds
  W (P : Server.providers W) V (net : Client.network V) :
  (forall request w,
      exists h f,
        Eff.events (Server.chat P request w)
        = [(Server.completions_create (lit "llama-3.3-70b-versatile")
              (Server.system_chat
               :: h ++ [{| Api.role := lit "user";
                           Api.content := Api.message request |}]), f)]
        /\ (length h <= 6)%nat
        /\ exists older, Api.conversation_history request = older ++ h)
  /\ (forall i s v s0 data,
        In (s0, Client.requests_post_chat data)
           (Eff.events (Client.run net i (s, v))) ->
        Api.conversation_history data
        = slice_from (-10) (Client.conversation_history s0)
        /\ (length (Api.conversation_history data) <= 10)%nat
        /\ exists older,
             Client.conversation_history s0
             = older ++ Api.conversation_history data).
Proof.
  split.
  - intros request w.
    destruct (chat_events P request w) as [f Hf].
    exists (Server.recent_history request), f.
    split; [exact Hf|]. split.
    + apply recent_history_length.
    + apply recent_history_suffix.
  - intros i s v s0 data H.
    apply run_chat_request in H. destruct H as (u & s1 & H).
    unfold Client.chat_request in H. inversion H; subst.
    cbn [Api.conversation_history].
    split; [reflexivity|]. split.
    + apply (@slice_from_neg_length _ 10). lia.
    + apply slice_from_suffix.
Qed.

(** C9: in every /chat request that a run of the client sends, the
    current user message is the last entry of the session's history and of
    the forwarded history, and the message list that the service sends to
    the provider for that request ends with the user message twice: once
    from the history, once as the final user message. *)
Theorem user_message_sent_twice
  W (net : Client.network W) V (P : Server.providers V) i s w s0 data v :
  In (s0, Client.requests_post_chat data)
     (Eff.events (Client.run net i (s, w))) ->
  let current := {| Api.role := lit "user";
                    Api.content := Api.message data |} in
  (exists older, Client.conversation_history s0 = older ++ [current])
  /\ (exists pre, Api.conversation_history data = pre ++ [current])
  /\ (exists pre f,
        Eff.events (Server.chat P data v)
        = [(Server.completions_create (lit "llama-3.3-70b-versatile")
              (Server.system_chat :: pre ++ [current; current]), f)]).
Proof.
  intros H current.
  destruct (chat_events P data v) as [f Hf]. rewrite Hf. clear Hf.
  cut ((exists older, Client.conversation_history s0 = older ++ [current])
       /\ (exists pre, Api.conversation_history data = pre ++ [current])
       /\ (exists pre,
             Server.chat_messages data
             = Server.system_chat :: pre ++ [current; current])).
  { intros (H1 & H2 & pre & H3). rewrite H3. eauto 6. }
  apply run_chat_request in H. destruct H as (u & s1 & H).
  unfold Client.chat_request in H. inversion H; subst.
  subst current. cbn [Api.conversation_history Api.message].
  cbn [Client.user_turn Client.conversation_history_append
       Client.conversation_history Client.messages_append].
  split; [eauto|].
  destruct (@slice_from_neg_last _ 10 (Client.conversation_history s1)
              {| Api.role := lit "user"; Api.content := u |}) as [pre Hpre];
    [lia|].
  cbn [Z.opp] in Hpre.
  split; [eauto|].
  unfold Server.chat_messages, Server.recent_history.
  cbn [Api.conversation_history Api.message].
  cbn [Z.opp] in Hpre. rewrite Hpre.
  destruct (6 <? _)%nat.
  - destruct (@slice_from_neg_last _ 6 pre
                {| Api.role := lit "user"; Api.content := u |}) as [pre' Hpre'];
      [lia|].
    cbn [Z.opp] in Hpre'. rewrite Hpre'. exists pre'. cbn [app].
    rewrite <- app_assoc. reflexivity.
  - exists pre. cbn [app]. rewrite <- app_assoc. reflexivity.
Qed.

Lemma user_message_sent_twice_witness :
  let data := {| Api.message := lit "What is 2+2?";
                 Api.conversation_history :=
                   [{| Api.role := lit "user";
                       Api.content := lit "What is 2+2?" |}] |} in
  let current := {| Api.role := lit "user";
                    Api.content := Api.message data |} in
  (exists older,
      Client.conversation_history
        (Client.user_turn (lit "What is 2+2?")
           (Client.set_processing true Client.initial_session_state))
      = older ++ [current])
  /\ (exists pre, Api.conversation_history data = pre ++ [current])
  /\ (exists pre f,
        Eff.events (Server.chat Fixtures.providers_up data tt)
        = [(Server.completions_create (lit "llama-3.3-70b-versatile")
              (Server.system_chat :: pre ++ [current; current]), f)]).
Proof.
  apply (@user_message_sent_twice unit Fixtures.network_up
           unit Fixtures.providers_up
           (Fixtures.type_text (lit "What is 2+2?"))
           Client.initial_session_state tt).
  vm_compute. repeat (first [left; reflexivity | right]).
Defined.

(** C8: every call to /chat sends the provider one message list, and its
    first element is the fixed system instruction [system_chat] (short
    answers, two to three sentences at most, no repetition), whatever the
    message, the history and the providers' state. *)
Theorem chat_system_instruction_first
  W (P : Server.providers W) (request : Api.ChatRequest) (w : W) :
  exists rest f,
    Eff.events (Server.chat P request w)
    = [(Server.completions_create (lit "llama-3.3-70b-versatile")
          (Server.system_chat :: rest), f)]
    /\ Server.chat_messages request = Server.system_chat :: rest.
Proof.
  destruct (chat_events P request w) as [f Hf].
  exists (Server.recent_history request
          ++ [{| Api.role := lit "user"; Api.content := Api.message request |}]), f.
  split; [exact Hf | reflexivity].
Qed.

(** C7: every chat request that a call to /voice sends to the provider
    holds exactly two messages, the fixed system instruction and the text
    transcribed from the uploaded audio, and no history, whatever the
    providers' state left by earlier calls. *)
Theorem voice_bot_sends_two_messages
  W (P : Server.providers W) (file : bytes) (w : W) model messages f :
  In (Server.completions_create model messages, f)
     (Eff.events (Server.voice_bot P file w)) ->
  exists user_text w1,
    Server.dg_transcribe P file w = (inr user_text, w1)
    /\ messages = [Server.system_voice;
                   {| Api.role := lit "user"; Api.content := user_text |}]
    /\ length messages = 2%nat.
Proof.
  rewrite voice_bot_events.
  destruct (Server.dg_transcribe P file w) as [[e|user_text] w1].
  - intros [H|[]]. discriminate.
  - intros [H|H]; [discriminate|].
    exists user_text, w1.
    assert (messages = [Server.system_voice;
                        {| Api.role := lit "user"; Api.content := user_text |}])
      as ->.
    { cbv zeta in H.
      destruct (Server.groq_complete P _ w1) as [[e|bot_text] w2].
      - destruct H as [H|[]]. now inversion H.
      - destruct H as [H|[H|[]]]; [now inversion H | discriminate]. }
    auto.
Qed.

Lemma voice_bot_sends_two_messages_witness :
  exists user_text w1,
    Server.dg_transcribe Fixtures.providers_up Fixtures.clip tt
    = (inr user_text, w1)
    /\ [Server.system_voice;
        {| Api.role := lit "user"; Api.content := lit "What is 2+2?" |}]
       = [Server.system_voice;
          {| Api.role := lit "user"; Api.content := user_text |}]
    /\ length [Server.system_voice;
               {| Api.role := lit "user"; Api.content := lit "What is 2+2?" |}]
       = 2%nat.
Proof.
  apply (@voice_bot_sends_two_messages unit Fixtures.providers_up Fixtures.clip tt
           (lit "llama-3.3-70b-versatile") _ Server.returned).
  vm_compute. repeat (first [left; reflexivity | right]).
Defined.

(** C6: whenever a provider call made for a request to /speech-to-text,
    /chat, /text-to-speech or /voice raises, the endpoint answers with
    HTTPException 500 whose detail is "Error: " followed by the exception's
    text, so the detail contains "Error:"; the exception itself never leaves
    the endpoint. *)
Theorem provider_failure_is_http_500
  W (P : Server.providers W) (r : Server.http_request) (w : W) c e :
  In (c, Server.raised e) (Eff.events (Server.app P r w)) ->
  exists detail,
    Eff.result (Server.app P r w)
    = Eff.Raise (Server.HTTPException 500 detail)
    /\ detail = lit "Error: " ++ e
    /\ contains (lit "Error:") detail = true
    /\ forall str_e,
         Eff.result (Server.app P r w) <> Eff.Raise (Server.Exception str_e).
Proof.
  intros H. exists (lit "Error: " ++ e).
  split; [|split; [reflexivity|split]].
  - now apply app_raised with c.
  - apply contains_startswith.
    change (lit "Error: ") with (lit "Error:" ++ lit " ").
    rewrite <- app_assoc. apply startswith_app.
  - apply app_no_raw_exception.
Qed.

Lemma provider_failure_is_http_500_witness :
  exists detail,
    Eff.result (Server.app Fixtures.providers_down
                  (Server.POST_voice Fixtures.clip) tt)
    = Eff.Raise (Server.HTTPException 500 detail)
    /\ detail = lit "Error: " ++ lit "timed out"
    /\ contains (lit "Error:") detail = true
    /\ forall str_e,
         Eff.result (Server.app Fixtures.providers_down
                       (Server.POST_voice Fixtures.clip) tt)
         <> Eff.Raise (Server.Exception str_e).
Proof.
  apply (@provider_failure_is_http_500 unit Fixtures.providers_down
           (Server.POST_voice Fixtures.clip) tt
           (Server.transcribe_file Fixtures.clip)).
  vm_compute. repeat (first [left; reflexivity | right]).
Defined.

(** C2 as stated fails after "No speech detected": the recording was
    processed by the first run (it was sent to transcription), the second
    run reads the same bytes and no text, and a turn starts all the same:
    the flag becomes true and the recording is sent again.  The guard
    compares with [last_audio_bytes], which that branch has reset. *)
Lemma turn_starts_on_processed_clip :
  let x1 := Client.run Fixtures.network_silence Fixtures.speak_clip
              (Client.initial_session_state, tt) in
  let x2 := Client.run Fixtures.network_silence Fixtures.speak_clip
              (Eff.final x1) in
  In (Client.voice_turn_start Fixtures.clip Client.initial_session_state,
      Client.requests_post_speech_to_text Fixtures.clip) (Eff.events x1)
  /\ Client.audio_recorder Fixtures.speak_clip = Some Fixtures.clip
  /\ Client.chat_input Fixtures.speak_clip = None
  /\ Client.processing (fst (Eff.final x1)) = false
  /\ Client.last_audio_bytes (fst (Eff.final x1)) = None
  /\ In (Client.voice_turn_start Fixtures.clip (fst (Eff.final x1)),
         Client.requests_post_speech_to_text Fixtures.clip) (Eff.events x2)
  /\ Client.processing
       (Client.voice_turn_start Fixtures.clip (fst (Eff.final x1))) = true.
Proof.
  cbv zeta. split; [|split; [|split; [|split; [|split; [|split]]]]];
    try reflexivity;
    vm_compute; repeat (first [left; reflexivity | right]).
Qed.

(** C2, amended: the processing flag is false in a fresh session; within
    a run it is seen true only if it was true before or a new input arrived:
    a recording that differs from the stored [last_audio_bytes], or
    non-empty typed text.  Every request of the pipeline is made with the
    flag true, in a run that began with the flag false; every voice turn and
    every text turn, on each of its branches, ends with the flag false, and
    so does every run that began with it false; and a run that begins with
    the flag true makes no request of the pipeline. *)
Theorem processing_flag W (net : Client.network W) :
  Client.processing Client.initial_session_state = false
  /\ (forall i s w ev,
        In ev (Eff.events (Client.run net i (s, w))) ->
        (Client.processing (fst ev) = true ->
         Client.processing s = false ->
         Client.new_input s i)
        /\ (Client.is_request (snd ev) = true ->
            Client.processing s = false
            /\ Client.processing (fst ev) = true))
  /\ (forall i s w,
        (Client.processing s = false ->
         Client.processing (fst (Eff.final (Client.run net i (s, w)))) = false)
        /\ (Client.processing s = true ->
            forall ev, In ev (Eff.events (Client.run net i (s, w))) ->
                       Client.is_request (snd ev) = false))
  /\ (forall audio_bytes s w,
        Client.processing
          (fst (Eff.final (Client.voice_turn net audio_bytes (s, w)))) = false
        /\ forall ev,
             In ev (Eff.events (Client.voice_turn net audio_bytes (s, w))) ->
             snd ev <> Client.st_rerun ->
             Client.processing (fst ev) = true)
  /\ (forall u s w,
        Client.processing
          (fst (Eff.final (Client.text_turn net u (s, w)))) = false
        /\ forall ev,
             In ev (Eff.events (Client.text_turn net u (s, w))) ->
             snd ev <> Client.st_rerun ->
             Client.processing (fst ev) = true).
Proof.
  assert (Voice : forall audio_bytes s w,
             Client.processing
               (fst (Eff.final (Client.voice_turn net audio_bytes (s, w)))) = false
             /\ forall ev,
                  In ev (Eff.events (Client.voice_turn net audio_bytes (s, w))) ->
                  snd ev <> Client.st_rerun ->
                  Client.processing (fst ev) = true).
  { intros audio_bytes s w.
    destruct (voice_turn_run net audio_bytes s w)
      as (t & w1 & evs1 & o & s' & w' & evs & _ & E & T).
    rewrite E. cbn [Eff.final Eff.events fst snd].
    destruct (voice_turn_end_facts T) as (P1 & _ & _ & _ & F).
    split; [exact P1|]. intros ev Hev. apply (F ev Hev). }
  assert (Text : forall u s w,
             Client.processing
               (fst (Eff.final (Client.text_turn net u (s, w)))) = false
             /\ forall ev,
                  In ev (Eff.events (Client.text_turn net u (s, w))) ->
                  snd ev <> Client.st_rerun ->
                  Client.processing (fst ev) = true).
  { intros u s w.
    destruct (text_turn_facts net u s w) as (P1 & _ & _ & F).
    split; [exact P1|]. intros ev Hev. apply (F ev Hev). }
  assert (Run : forall i s w ev,
             In ev (Eff.events (Client.run net i (s, w))) ->
             (Client.processing (fst ev) = true ->
              Client.processing s = false ->
              Client.new_input s i)
             /\ (Client.is_request (snd ev) = true ->
                 Client.processing s = false
                 /\ Client.processing (fst ev) = true)).
  { intros i s w ev Hev. apply run_event in Hev.
    destruct Hev
      as [[_ H]|[[_ H]|[(_ & Hp & _ & b & H)|[(_ & Hp & H)|(_ & Hp & H)]]]].
    - subst ev. split; [discriminate|discriminate].
    - apply page_event_inv in H. destruct H as (Hs & Hr & _).
      rewrite Hs, Hr. split; [congruence|discriminate].
    - rewrite H. split; [congruence|discriminate].
    - destruct H as (audio_bytes & w0 & Ha & Ht & Hl & H).
      split.
      + intros _ _. left. exists audio_bytes. auto.
      + intros Hr. split; [exact Hp|].
        apply (proj2 (Voice audio_bytes s w0) ev H).
        intros E. rewrite E in Hr. discriminate.
    - destruct H as (u & s' & w' & Hu & Ht & Hp' & H).
      split.
      + intros _ _. right. exists u. auto.
      + intros Hr. split; [exact Hp|].
        apply (proj2 (Text u s' w') ev H).
        intros E. rewrite E in Hr. discriminate. }
  split; [reflexivity|]. split; [exact Run|].
  split; [|split; [exact Voice | exact Text]].
  intros i s w. split.
  - apply run_idle.
  - intros Hp ev Hev.
    destruct (Client.is_request (snd ev)) eqn:Hr; [|reflexivity].
    destruct (proj2 (Run i s w ev Hev) Hr) as [Hp' _]. congruence.
Qed.

(** C5: a voice turn whose transcript is empty or all whitespace ends
    there: it shows "No speech detected", makes no request beyond the
    transcription, and appends nothing to the display messages or to the
    conversation history. *)
Theorem empty_transcript_aborts
  W (net : Client.network W) audio_bytes s w transcript :
  Eff.result (Client.speech_to_text net audio_bytes
                (Client.voice_turn_start audio_bytes s, w))
  = Eff.Return (Some transcript) ->
  forallb isspace transcript = true ->
  Eff.result (Client.voice_turn net audio_bytes (s, w)) = Eff.Return tt
  /\ In (Client.voice_turn_start audio_bytes s, Client.no_speech_detected)
        (Eff.events (Client.voice_turn net audio_bytes (s, w)))
  /\ Client.messages
       (fst (Eff.final (Client.voice_turn net audio_bytes (s, w))))
     = Client.messages s
  /\ Client.conversation_history
       (fst (Eff.final (Client.voice_turn net audio_bytes (s, w))))
     = Client.conversation_history s
  /\ forall ev,
       In ev (Eff.events (Client.voice_turn net audio_bytes (s, w))) ->
       Client.is_request (snd ev) = true ->
       snd ev = Client.requests_post_speech_to_text audio_bytes.
Proof.
  intros Ht Hspace.
  destruct (voice_turn_run net audio_bytes s w)
    as (t & w1 & evs1 & o & s' & w' & evs & Es & E & T).
  rewrite Es in Ht. cbn [Eff.result fst] in Ht. inversion Ht; subst t.
  rewrite E. cbn [Eff.result Eff.final Eff.events fst snd].
  destruct (voice_turn_end_facts T) as (_ & _ & _ & F & _).
  destruct (F (and_strip_whitespace transcript Hspace))
    as (F1 & F2 & F3 & F4 & F5).
  auto.
Qed.

Lemma empty_transcript_aborts_witness :
  Eff.result (Client.voice_turn Fixtures.network_silence Fixtures.clip
                (Client.initial_session_state, tt)) = Eff.Return tt
  /\ In (Client.voice_turn_start Fixtures.clip Client.initial_session_state,
         Client.no_speech_detected)
        (Eff.events (Client.voice_turn Fixtures.network_silence Fixtures.clip
                       (Client.initial_session_state, tt)))
  /\ Client.messages
       (fst (Eff.final (Client.voice_turn Fixtures.network_silence Fixtures.clip
                          (Client.initial_session_state, tt))))
     = Client.messages Client.initial_session_state
  /\ Client.conversation_history
       (fst (Eff.final (Client.voice_turn Fixtures.network_silence Fixtures.clip
                          (Client.initial_session_state, tt))))
     = Client.conversation_history Client.initial_session_state
  /\ forall ev,
       In ev (Eff.events (Client.voice_turn Fixtures.network_silence
                            Fixtures.clip (Client.initial_session_state, tt))) ->
       Client.is_request (snd ev) = true ->
       snd ev = Client.requests_post_speech_to_text Fixtures.clip.
Proof.
  apply (@empty_transcript_aborts unit Fixtures.network_silence Fixtures.clip
           Client.initial_session_state tt (lit "  ")).
  - reflexivity.
  - reflexivity.
Defined.

(** C10: a voice turn stores the new recording before its pipeline runs:
    every request and every signal of the turn is made with
    [last_audio_bytes] holding it.  At the end it is reset to [None] exactly
    when the transcript was empty or all whitespace; on every other branch
    (failed chat, failed synthesis, success) it still holds the recording.
    So the same recording, offered again, is skipped after those and is
    transcribed again after "No speech detected". *)
Theorem fingerprint_reset_only_on_no_speech
  W (net : Client.network W) audio_bytes s w transcript :
  truthy audio_bytes = true ->
  Eff.result (Client.speech_to_text net audio_bytes
                (Client.voice_turn_start audio_bytes s, w))
  = Eff.Return transcript ->
  let x := Client.voice_turn net audio_bytes (s, w) in
  In (Client.voice_turn_start audio_bytes s,
      Client.requests_post_speech_to_text audio_bytes) (Eff.events x)
  /\ (forall ev, In ev (Eff.events x) ->
        Client.last_audio_bytes (fst ev) = Some audio_bytes)
  /\ Client.last_audio_bytes (fst (Eff.final x))
     = (if and_strip transcript then Some audio_bytes else None)
  /\ (and_strip transcript = true ->
      Client.voice_input net (Some audio_bytes) (Eff.final x)
      = Eff.ret tt (Eff.final x))
  /\ (and_strip transcript = false ->
      In (Client.voice_turn_start audio_bytes (fst (Eff.final x)),
          Client.requests_post_speech_to_text audio_bytes)
         (Eff.events (Client.voice_input net (Some audio_bytes) (Eff.final x)))).
Proof.
  intros Hclip Ht x. subst x.
  destruct (voice_turn_run net audio_bytes s w)
    as (t & w1 & evs1 & o & s' & w' & evs & Es & E & T).
  rewrite Es in Ht. cbn [Eff.result fst] in Ht. inversion Ht; subst t.
  rewrite E. cbn [Eff.final Eff.events fst snd].
  destruct (voice_turn_end_facts T) as (P1 & P2 & P3 & _ & F).
  split; [exact P2|]. split; [intros ev Hev; apply (F ev Hev)|].
  split; [exact P3|].
  rewrite voice_input_run, P1, Hclip, P3.
  split; intros Hs; rewrite Hs.
  - destruct (opt_bytes_eq_dec _ _); [reflexivity|congruence].
  - destruct (opt_bytes_eq_dec _ _); [discriminate|].
    destruct (voice_turn_run net audio_bytes s' w')
      as (t2 & w2 & evs2 & o2 & s2 & w2' & evs' & _ & E2 & T2).
    rewrite E2. apply (voice_turn_end_facts T2).
Qed.

Lemma fingerprint_reset_only_on_no_speech_witness :
  let x := Client.voice_turn Fixtures.network_silence Fixtures.clip
             (Client.initial_session_state, tt) in
  In (Client.voice_turn_start Fixtures.clip Client.initial_session_state,
      Client.requests_post_speech_to_text Fixtures.clip) (Eff.events x)
  /\ (forall ev, In ev (Eff.events x) ->
        Client.last_audio_bytes (fst ev) = Some Fixtures.clip)
  /\ Client.last_audio_bytes (fst (Eff.final x))
     = (if and_strip (Some (lit "  ")) then Some Fixtures.clip else None)
  /\ (and_strip (Some (lit "  ")) = true ->
      Client.voice_input Fixtures.network_silence (Some Fixtures.clip)
        (Eff.final x)
      = Eff.ret tt (Eff.final x))
  /\ (and_strip (Some (lit "  ")) = false ->
      In (Client.voice_turn_start Fixtures.clip (fst (Eff.final x)),
          Client.requests_post_speech_to_text Fixtures.clip)
         (Eff.events (Client.voice_input Fixtures.network_silence
                        (Some Fixtures.clip) (Eff.final x)))).
Proof.
  apply (@fingerprint_reset_only_on_no_speech unit Fixtures.network_silence
           Fixtures.clip Client.initial_session_state tt (Some (lit "  "))).
  - reflexivity.
  - reflexivity.
Defined.

(** C3 as stated fails on a voice turn: the chat stage returns a reply,
    the synthesis stage returns nothing, and the session that the run leaves
    is not the old one with the user turn appended, for the stored recording
    has changed too. *)
Lemma synthesis_failure_changes_fingerprint :
  let s1 := Client.user_turn (lit "What is 2+2?")
              (Client.voice_turn_start Fixtures.clip
                 Client.initial_session_state) in
  let x := Client.run Fixtures.network_mute Fixtures.speak_clip
             (Client.initial_session_state, tt) in
  Eff.result (Client.get_ai_response Fixtures.network_mute
                (lit "What is 2+2?") (s1, tt))
  = Eff.Return (Some (lit "Four."))
  /\ Eff.result (Client.text_to_speech Fixtures.network_mute (lit "Four.")
                   (s1, tt))
     = Eff.Return None
  /\ In (s1, Client.failed_speech_audio) (Eff.events x)
  /\ Client.last_audio_bytes (fst (Eff.final x)) = Some Fixtures.clip
  /\ ~ (exists said,
          fst (Eff.final x)
          = Client.user_turn said Client.initial_session_state).
Proof.
  cbv zeta. split; [reflexivity|]. split; [reflexivity|]. split; [|split].
  - vm_compute. repeat (first [left; reflexivity | right]).
  - reflexivity.
  - intros [said H]. vm_compute in H. discriminate.
Qed.

(** C3, amended: a turn in which the chat stage returns a non-empty
    reply and the synthesis stage then returns no audio (nothing, or an
    empty clip) shows "Failed to generate speech audio", ends without a
    rerun, and appends the assistant's text to neither the display messages
    nor the conversation history.  What a text turn leaves behind is the
    appended user turn and nothing else; what a voice turn leaves behind is
    the appended user turn and the stored recording, which holds the turn's
    recording. *)
Theorem synthesis_failure_keeps_user_turn_only
  W (net : Client.network W) s w :
  Client.processing s = false ->
  (forall audio_bytes said reply audio_data,
      let s0 := Client.voice_turn_start audio_bytes s in
      let heard := Client.speech_to_text net audio_bytes (s0, w) in
      let s1 := Client.user_turn said s0 in
      let chat :=
        Client.get_ai_response net said (s1, snd (Eff.final heard)) in
      let speech :=
        Client.text_to_speech net reply (s1, snd (Eff.final chat)) in
      let x := Client.voice_turn net audio_bytes (s, w) in
      Eff.result heard = Eff.Return (Some said) ->
      and_strip (Some said) = true ->
      Eff.result chat = Eff.Return (Some reply) ->
      and_strip (Some reply) = true ->
      Eff.result speech = Eff.Return audio_data ->
      Client.no_audio audio_data = true ->
      In (s1, Client.failed_speech_audio) (Eff.events x)
      /\ Eff.result x = Eff.Return tt
      /\ fst (Eff.final x)
         = Client.set_last_audio_bytes (Some audio_bytes)
             (Client.user_turn said s)
      /\ Client.messages (fst (Eff.final x))
         = Client.messages s
           ++ [{| Client.role := lit "user"; Client.content := said;
                  Client.audio := None |}]
      /\ Client.conversation_history (fst (Eff.final x))
         = Client.conversation_history s
           ++ [{| Api.role := lit "user"; Api.content := said |}])
  /\ (forall u reply audio_data,
        let s1 := Client.user_turn u (Client.set_processing true s) in
        let chat := Client.get_ai_response net u (s1, w) in
        let speech :=
          Client.text_to_speech net reply (s1, snd (Eff.final chat)) in
        let x := Client.text_turn net u (s, w) in
        Eff.result chat = Eff.Return (Some reply) ->
        and_strip (Some reply) = true ->
        Eff.result speech = Eff.Return audio_data ->
        Client.no_audio audio_data = true ->
        In (s1, Client.failed_speech_audio) (Eff.events x)
        /\ Eff.result x = Eff.Return tt
        /\ fst (Eff.final x) = Client.user_turn u s
        /\ Client.messages (fst (Eff.final x))
           = Client.messages s
             ++ [{| Client.role := lit "user"; Client.content := u;
                    Client.audio := None |}]
        /\ Client.conversation_history (fst (Eff.final x))
           = Client.conversation_history s
             ++ [{| Api.role := lit "user"; Api.content := u |}]).
Proof.
  intros Hp.
  assert (Turn : forall u s' w' reply audio_data,
             Eff.result (Client.get_ai_response net u
                           (Client.user_turn u s', w'))
             = Eff.Return (Some reply) ->
             and_strip (Some reply) = true ->
             Eff.result
               (Client.text_to_speech net reply
                  (Client.user_turn u s',
                   snd (Eff.final (Client.get_ai_response net u
                                     (Client.user_turn u s', w')))))
             = Eff.Return audio_data ->
             Client.no_audio audio_data = true ->
             exists w'' evs,
               Client.turn net u (s', w')
               = (Eff.Return tt,
                  (Client.set_processing false (Client.user_turn u s'), w''),
                  evs ++ [(Client.user_turn u s', Client.failed_speech_audio)])).
  { intros u s' w' reply audio_data Hc Hreply Hs Hna.
    destruct (turn_stages net u s' w') as (r & Er & E). cbv zeta in E.
    rewrite Hc in Er. injection Er as <-.
    rewrite Hreply, Hs in E. rewrite E.
    destruct audio_data as [[|b clip]|]; [| discriminate Hna |];
      do 2 eexists; rewrite app_assoc; reflexivity. }
  split.
  - intros audio_bytes said reply audio_data s0 heard s1 chat speech x
      Hh Hsaid Hc Hreply Hs Hna.
    destruct (voice_turn_stages net audio_bytes s w) as (t & Et & E).
    cbv zeta in E. fold s0 heard in Et, E.
    rewrite Hh in Et. injection Et as <-. rewrite Hsaid in E.
    destruct (Turn said s0 (snd (Eff.final heard)) reply audio_data
                Hc Hreply Hs Hna) as (w'' & evs & E').
    subst x. rewrite E, E'. cbn [Eff.result Eff.final Eff.events fst snd].
    split.
    { apply in_or_app. right. right. apply in_or_app. right. left.
      reflexivity. }
    split; [reflexivity|].
    subst s0. repeat split; destruct s; cbn in *; subst; reflexivity.
  - intros u reply audio_data s1 chat speech x Hc Hreply Hs Hna.
    destruct (Turn u (Client.set_processing true s) w reply audio_data
                Hc Hreply Hs Hna) as (w'' & evs & E').
    subst x. rewrite text_turn_run, E'.
    cbn [Eff.result Eff.final Eff.events fst snd].
    split; [apply in_or_app; right; left; reflexivity|].
    split; [reflexivity|].
    repeat split; destruct s; cbn in *; subst; reflexivity.
Qed.

Lemma synthesis_failure_keeps_user_turn_only_witness :
  let s1 := Client.user_turn (lit "What is 2+2?")
              (Client.voice_turn_start Fixtures.clip
                 Client.initial_session_state) in
  let x := Client.voice_turn Fixtures.network_mute Fixtures.clip
             (Client.initial_session_state, tt) in
  In (s1, Client.failed_speech_audio) (Eff.events x)
  /\ Eff.result x = Eff.Return tt
  /\ fst (Eff.final x)
     = Client.set_last_audio_bytes (Some Fixtures.clip)
         (Client.user_turn (lit "What is 2+2?") Client.initial_session_state)
  /\ Client.messages (fst (Eff.final x))
     = Client.messages Client.initial_session_state
       ++ [{| Client.role := lit "user";
              Client.content := lit "What is 2+2?";
              Client.audio := None |}]
  /\ Client.conversation_history (fst (Eff.final x))
     = Client.conversation_history Client.initial_session_state
       ++ [{| Api.role := lit "user"; Api.content := lit "What is 2+2?" |}].
Proof.
  apply (proj1 (@synthesis_failure_keeps_user_turn_only
                  unit Fixtures.network_mute Client.initial_session_state tt
                  eq_refl)
           Fixtures.clip (lit "What is 2+2?") (lit "Four.") None);
    reflexivity.
Defined.





(** * Further properties of the code *)

(** ** The added definitions at work *)

Example load_examples :
  Service.load Samples.keys_set = inr Samples.keys_set
  /\ Service.load Samples.groq_key_empty
     = inl (Service.runtime_error
              (10060%N :: lit " GROQ_API_KEY not set in .env file!"))
  /\ Service.load {| Service.DEEPGRAM_API_KEY := None;
                     Service.GROQ_API_KEY := None |}
     = inl (Service.runtime_error
              (10060%N :: lit " DEEPGRAM_API_KEY not set in .env file!")).
Proof. repeat split. Qed.

Example voice_bot_llm_down :
  Server.app Samples.providers_llm_down (Server.POST_voice Fixtures.clip) tt
  = (Eff.Raise (Server.HTTPException 500 (lit "Error: rate limited")), tt,
     [(Server.transcribe_file Fixtures.clip, Server.returned);
      (Server.completions_create (lit "llama-3.3-70b-versatile")
         [Server.system_voice;
          {| Api.role := lit "user"; Api.content := lit "What is 2+2?" |}],
       Server.raised (lit "rate limited"))]).
Proof. reflexivity. Qed.

Example test_tts_examples :
  Eff.result (Service.test_tts Fixtures.providers_up (fun e => e) tt)
  = Eff.Return (Service.test_passed 3)
  /\ Eff.result (Service.test_tts Fixtures.providers_down (fun e => e) tt)
     = Eff.Return (Service.test_failed (lit "timed out") (lit "timed out")).
Proof. repeat split. Qed.

Example run_text_unreachable :
  let x := Client.run Samples.network_unreachable (Fixtures.type_text (lit "hi"))
             (Client.initial_session_state, tt) in
  Eff.result x = Eff.Return tt
  /\ fst (Eff.final x)
     = Client.user_turn (lit "hi") Client.initial_session_state
  /\ List.map snd (Eff.events x)
     = [Client.requests_get_root;
        Client.st_error (10060%N :: lit " Backend Offline");
        Client.st_info (lit "Make sure to run: python main.py");
        Client.requests_post_chat
          {| Api.message := lit "hi";
             Api.conversation_history :=
               [{| Api.role := lit "user"; Api.content := lit "hi" |}] |};
        Client.st_error (lit "Error: Connection refused");
        Client.failed_ai_response].
Proof. repeat split. Qed.

Example chat_container_example :
  List.map snd
    (Eff.events
       (Client.chat_container
          (Page.runs Fixtures.network_up [Fixtures.speak_clip]
             (Client.initial_session_state, tt))))
  = [Client.st_chat_message (lit "user");
     Client.st_markdown (lit "What is 2+2?");
     Client.st_chat_message (lit "assistant");
     Client.st_markdown (lit "Four.");
     Client.st_audio [Byte.x49; Byte.x44; Byte.x33]].
Proof. reflexivity. Qed.

(** ** The service: start-up, the GET routes, the shape of the answers *)

(** X1: the module loads exactly when both keys are set and not empty;
    the Deepgram key is looked at first; and GET / of a loaded module reports
    both providers connected. *)
Theorem loaded_service_reports_connected (env : Service.environment) :
  (Service.load env = inr env
   <-> Service.bool_of (Service.DEEPGRAM_API_KEY env) = true
       /\ Service.bool_of (Service.GROQ_API_KEY env) = true)
  /\ (Service.bool_of (Service.DEEPGRAM_API_KEY env) = false ->
      Service.load env
      = inl (Service.runtime_error
               (10060%N :: lit " DEEPGRAM_API_KEY not set in .env file!")))
  /\ (forall loaded,
        Service.load env = inr loaded ->
        loaded = env
        /\ Service.deepgram_connected (Service.root loaded) = true
        /\ Service.groq_connected (Service.root loaded) = true).
Proof.
  unfold Service.load, Service.root.
  cbn [Service.deepgram_connected Service.groq_connected].
  destruct (Service.bool_of (Service.DEEPGRAM_API_KEY env)) eqn:D;
    destruct (Service.bool_of (Service.GROQ_API_KEY env)) eqn:G;
    cbn [negb].
  - split; [tauto|]. split; [discriminate|].
    intros loaded H. inversion H; subst. rewrite D, G. auto.
  - split; [split; [discriminate|intros [_ H]; discriminate]|].
    split; discriminate.
  - split; [split; [discriminate|intros [H _]; discriminate]|].
    split; [reflexivity|discriminate].
  - split; [split; [discriminate|intros [H _]; discriminate]|].
    split; [reflexivity|discriminate].
Qed.

Ltac routes r :=
  destruct r as [audio|request|request|file];
  unfold Server.app, Eff.map, Server.speech_to_text_endpoint, Server.chat,
    Server.text_to_speech_endpoint, Server.voice_bot, Eff.try_except,
    Eff.bind, Server.transcribe, Server.complete, Server.speak,
    Server.provider, Server.except_500, Eff.raise, Eff.ret, Eff.events,
    Eff.result.

Ltac providers_answer P :=
  repeat match goal with
    | |- context [Server.dg_transcribe P ?a ?w0] =>
        destruct (Server.dg_transcribe P a w0) as [[?e|?user_text] ?w] eqn:?
    | |- context [Server.groq_complete P ?a ?w0] =>
        destruct (Server.groq_complete P a w0) as [[?e|?bot_text] ?w] eqn:?
    | |- context [Server.dg_speak P ?a ?w0] =>
        destruct (Server.dg_speak P a w0) as [[?e|?clip] ?w] eqn:?
    | _ => progress cbn [fst snd app]
    end.

(** X2: GET /test-tts never raises, whatever the provider does: it makes
    one synthesis call for the fixed test sentence and answers with
    success true and the size of the audio, or, when the call raised, with
    success false and the exception's text; no HTTP 500, unlike the POST
    routes. *)
Theorem test_tts_never_raises
  W (P : Server.providers W) (format_exc : str -> str) (w : W) :
  exists b f,
    Eff.result (Service.test_tts P format_exc w) = Eff.Return b
    /\ Eff.events (Service.test_tts P format_exc w)
       = [(Server.speak_save (lit "Hello, this is a test message."), f)]
    /\ match fst (Server.dg_speak P (lit "Hello, this is a test message.") w)
       with
       | inl e =>
           f = Server.raised e
           /\ b = Service.test_failed e (format_exc e)
           /\ Service.success b = false
       | inr audio =>
           f = Server.returned
           /\ b = Service.test_passed (length audio)
           /\ Service.success b = true
       end.
Proof.
  unfold Service.test_tts, Eff.try_except, Eff.bind, Server.speak,
    Server.provider, Eff.ret.
  destruct (Server.dg_speak P _ w) as [[e|audio] w'];
    do 2 eexists; repeat split.
Qed.

(** X3: a POST route answers with a body exactly when none of the
    provider calls it made raised; it always makes at least one call, and
    every body it answers with has success true. *)
Theorem body_iff_no_provider_failure
  W (P : Server.providers W) (r : Server.http_request) (w : W) :
  Eff.events (Server.app P r w) <> []
  /\ (forall b,
        Eff.result (Server.app P r w) = Eff.Return b ->
        Service.body_success b = true
        /\ forallb Service.has_returned (Eff.events (Server.app P r w)) = true)
  /\ (forallb Service.has_returned (Eff.events (Server.app P r w)) = true ->
      exists b, Eff.result (Server.app P r w) = Eff.Return b).
Proof.
  routes r; providers_answer P; (split; [discriminate|]); split;
    try (intros b H; inversion H; subst; split; reflexivity);
    try (intros b H; discriminate H);
    try (intros H; discriminate H);
    try (intros _; eexists; reflexivity).
Qed.

(** X4: a route makes no provider call after one that raised: every call
    but the last returned.  /speech-to-text, /chat and /text-to-speech make
    exactly one call, of their own stage; /voice makes one to three, in the
    order transcription, completion, synthesis. *)
Theorem no_call_after_a_failure
  W (P : Server.providers W) (r : Server.http_request) (w : W) :
  forallb Service.has_returned
    (removelast (Eff.events (Server.app P r w))) = true
  /\ exists k,
       (1 <= k <= 3)%nat
       /\ List.map (fun ev => Service.call_stage (fst ev))
            (Eff.events (Server.app P r w))
          = match r with
            | Server.POST_speech_to_text _ => [0%nat]
            | Server.POST_chat _ => [1%nat]
            | Server.POST_text_to_speech _ => [2%nat]
            | Server.POST_voice _ => firstn k [0; 1; 2]%nat
            end.
Proof.
  routes r; providers_answer P; (split; [reflexivity|]);
    first [ exists 1%nat; split; [lia|reflexivity]
          | exists 2%nat; split; [lia|reflexivity]
          | exists 3%nat; split; [lia|reflexivity] ].
Qed.

(** X5: /voice is not /chat with an empty history: for the same user
    text the two send the provider the same model name and the same user
    message, but system instructions of different content. *)
Theorem voice_and_chat_instructions_differ
  W (P : Server.providers W) (file : bytes) (w : W) model messages f :
  In (Server.completions_create model messages, f)
     (Eff.events (Server.voice_bot P file w)) ->
  exists user_text,
    fst (Server.dg_transcribe P file w) = inr user_text
    /\ forall V (Q : Server.providers V) (v : V),
         exists messages' f',
           Eff.events
             (Server.chat Q {| Api.message := user_text;
                               Api.conversation_history := [] |} v)
           = [(Server.completions_create model messages', f')]
           /\ messages' <> messages
           /\ tl messages' = tl messages
           /\ List.map Api.role messages' = List.map Api.role messages.
Proof.
  rewrite voice_bot_events.
  destruct (Server.dg_transcribe P file w) as [[e|user_text] w1].
  - intros [H|[]]. discriminate.
  - intros [H|H]; [discriminate|].
    exists user_text. split; [reflexivity|].
    assert (model = lit "llama-3.3-70b-versatile"
            /\ messages
               = [Server.system_voice;
                  {| Api.role := lit "user"; Api.content := user_text |}])
      as [-> ->].
    { cbv zeta in H.
      destruct (Server.groq_complete P _ w1) as [[e|bot_text] w2].
      - destruct H as [H|[]]. inversion H. auto.
      - destruct H as [H|[H|[]]]; [inversion H; auto | discriminate]. }
    intros V Q v.
    destruct (chat_events Q {| Api.message := user_text;
                               Api.conversation_history := [] |} v)
      as [f' Hf'].
    do 2 eexists. split; [exact Hf'|].
    split; [|split; reflexivity].
    intros H'. inversion H'.
Qed.

Lemma voice_and_chat_instructions_differ_witness :
  exists user_text,
    fst (Server.dg_transcribe Fixtures.providers_up Fixtures.clip tt)
    = inr user_text
    /\ forall V (Q : Server.providers V) (v : V),
         exists messages' f',
           Eff.events
             (Server.chat Q {| Api.message := user_text;
                               Api.conversation_history := [] |} v)
           = [(Server.completions_create (lit "llama-3.3-70b-versatile")
                 messages', f')]
           /\ messages'
              <> [Server.system_voice;
                  {| Api.role := lit "user";
                     Api.content := lit "What is 2+2?" |}]
           /\ tl messages'
              = tl [Server.system_voice;
                    {| Api.role := lit "user";
                       Api.content := lit "What is 2+2?" |}]
           /\ List.map Api.role messages'
              = List.map Api.role
                  [Server.system_voice;
                   {| Api.role := lit "user";
                      Api.content := lit "What is 2+2?" |}].
Proof.
  apply (@voice_and_chat_instructions_differ unit Fixtures.providers_up
           Fixtures.clip tt (lit "llama-3.3-70b-versatile") _ Server.returned).
  vm_compute. repeat (first [left; reflexivity | right]).
Defined.

(** [l[-k:]] keeps the last [k] elements. *)
Lemma slice_from_neg_skipn A (k : nat) (l : list A) :
  (0 < k)%nat ->
  slice_from (- Z.of_nat k) l = skipn (length l - k) l.
Proof.
  intros Hk. unfold slice_from.
  replace (- Z.of_nat k <? 0)%Z with true by (symmetry; apply Z.ltb_lt; lia).
  f_equal. lia.
Qed.

Lemma slice_from_neg_all A (k : nat) (l : list A) :
  (0 < k)%nat -> (length l <= k)%nat -> slice_from (- Z.of_nat k) l = l.
Proof.
  intros Hk Hl. rewrite slice_from_neg_skipn by assumption.
  replace (length l - k)%nat with 0%nat by lia. reflexivity.
Qed.

Lemma slice_from_neg_twice A (j k : nat) (l : list A) :
  (0 < j <= k)%nat ->
  slice_from (- Z.of_nat j) (slice_from (- Z.of_nat k) l)
  = slice_from (- Z.of_nat j) l.
Proof.
  intros H. rewrite !slice_from_neg_skipn by lia.
  rewrite skipn_skipn, length_skipn. f_equal. lia.
Qed.

Lemma recent_history_slice request :
  Server.recent_history request
  = slice_from (-6) (Api.conversation_history request).
Proof.
  unfold Server.recent_history.
  destruct (Nat.ltb_spec 6 (length (Api.conversation_history request)));
    [reflexivity|].
  symmetry. apply (@slice_from_neg_all _ 6); lia.
Qed.

(** X6: the history that /chat forwards is [conversation_history[-6:]]
    whatever its length (the test of line 93 changes nothing): exactly
    min(6, n) entries, so the provider gets min(6, n) + 2 messages, and a
    history of at most 6 entries is forwarded whole. *)
Theorem chat_window_is_last_six (request : Api.ChatRequest) :
  Server.recent_history request
  = slice_from (-6) (Api.conversation_history request)
  /\ length (Server.recent_history request)
     = Nat.min 6 (length (Api.conversation_history request))
  /\ length (Server.chat_messages request)
     = (Nat.min 6 (length (Api.conversation_history request)) + 2)%nat
  /\ ((length (Api.conversation_history request) <= 6)%nat ->
      Server.recent_history request = Api.conversation_history request).
Proof.
  assert (L : length (Server.recent_history request)
              = Nat.min 6 (length (Api.conversation_history request))).
  { rewrite recent_history_slice.
    rewrite (@slice_from_neg_skipn _ 6) by lia.
    rewrite length_skipn. lia. }
  split; [apply recent_history_slice|]. split; [exact L|]. split.
  - unfold Server.chat_messages. rewrite !length_app, L. simpl. lia.
  - intros H. rewrite recent_history_slice.
    apply (@slice_from_neg_all _ 6); lia.
Qed.

(** X7: end to end, for every /chat request of a run of the client, the
    history that the service forwards to the provider is the last
    min(6, n) entries of the session's conversation history at that moment
    (the client's cut to 10 never shows); the last of them is the current
    user message, so at most 5 earlier entries reach the provider. *)
Theorem provider_sees_last_six_of_session
  W (net : Client.network W) i s w s0 data :
  In (s0, Client.requests_post_chat data)
     (Eff.events (Client.run net i (s, w))) ->
  Server.recent_history data
  = slice_from (-6) (Client.conversation_history s0)
  /\ length (Server.recent_history data)
     = Nat.min 6 (length (Client.conversation_history s0))
  /\ exists earlier,
       Server.recent_history data
       = earlier ++ [{| Api.role := lit "user";
                        Api.content := Api.message data |}]
       /\ (length earlier <= 5)%nat.
Proof.
  intros H. apply run_chat_request in H. destruct H as (u & s1 & H).
  unfold Client.chat_request in H. injection H as Hs Hd. subst s0 data.
  cbn [Api.message Client.user_turn Client.conversation_history_append
       Client.conversation_history Client.messages_append].
  set (current := {| Api.role := lit "user"; Api.content := u |}).
  set (h := Client.conversation_history s1 ++ [current]).
  assert (E : Server.recent_history
                {| Api.message := u;
                   Api.conversation_history := slice_from (-10) h |}
              = slice_from (-6) h).
  { rewrite recent_history_slice. cbn [Api.conversation_history].
    apply (@slice_from_neg_twice _ 6 10). lia. }
  rewrite E. split; [reflexivity|].
  assert (L : length (slice_from (-6) h) = Nat.min 6 (length h)).
  { rewrite (@slice_from_neg_skipn _ 6) by lia. rewrite length_skipn. lia. }
  split; [exact L|].
  destruct (@slice_from_neg_last _ 6 (Client.conversation_history s1) current)
    as [pre Hpre]; [lia|].
  cbn [Z.opp] in Hpre. fold h in Hpre. exists pre. split; [exact Hpre|].
  rewrite Hpre, length_app in L. cbn [length] in L.
  pose proof (Nat.le_min_l 6 (length h)). lia.
Qed.

Lemma provider_sees_last_six_of_session_witness :
  let s0 := Client.user_turn (lit "hi")
              (Client.set_processing true Client.initial_session_state) in
  let data := {| Api.message := lit "hi";
                 Api.conversation_history :=
                   slice_from (-10) (Client.conversation_history s0) |} in
  Server.recent_history data
  = slice_from (-6) (Client.conversation_history s0)
  /\ length (Server.recent_history data)
     = Nat.min 6 (length (Client.conversation_history s0))
  /\ exists earlier,
       Server.recent_history data
       = earlier ++ [{| Api.role := lit "user";
                        Api.content := Api.message data |}]
       /\ (length earlier <= 5)%nat.
Proof.
  apply (@provider_sees_last_six_of_session unit Fixtures.network_up
           (Fixtures.type_text (lit "hi")) Client.initial_session_state tt).
  vm_compute. repeat (first [left; reflexivity | right]).
Defined.

(** ** The session controller: the helpers and the branches of a turn *)

Ltac network_answers net :=
  repeat match goal with
    | _ => progress cbn [fst snd app]
    | |- context [Client.post_speech_to_text net ?a ?w] =>
        destruct (Client.post_speech_to_text net a w) as [[?e|?resp] ?w] eqn:?
    | |- context [Client.post_chat net ?a ?w] =>
        destruct (Client.post_chat net a w) as [[?e|?resp] ?w] eqn:?
    | |- context [Client.post_text_to_speech net ?a ?w] =>
        destruct (Client.post_text_to_speech net a w) as [[?e|?resp] ?w] eqn:?
    | |- context [(Client.status_code ?r =? 200)%Z] =>
        destruct (Client.status_code r =? 200)%Z eqn:?
    | |- context [Client.payload ?r] =>
        destruct (Client.payload r) as [?e|?v] eqn:?
    end.

Ltac helper_table :=
  do 2 eexists; (split; [reflexivity|]); (split; [reflexivity|]);
  (split; [reflexivity|]); split;
  [ cbn [length]; lia
  | intros t Ht; first [ discriminate Ht
                       | inversion Ht; subst; eexists; repeat split;
                         first [ reflexivity | assumption
                               | apply Z.eqb_eq; assumption ] ] ].

(** X8: the three request helpers fail soft.  Each makes exactly one
    request, never raises and never touches the session; it shows at most
    one error; and it returns a value only when the request came back with
    status 200 and a readable body, in which case it shows nothing. *)
Theorem helpers_fail_soft W (net : Client.network W) s w :
  (forall audio_bytes,
      exists r evs,
        Eff.result (Client.speech_to_text net audio_bytes (s, w)) = Eff.Return r
        /\ fst (Eff.final (Client.speech_to_text net audio_bytes (s, w))) = s
        /\ Eff.events (Client.speech_to_text net audio_bytes (s, w))
           = (s, Client.requests_post_speech_to_text audio_bytes) :: evs
        /\ (length evs <= 1)%nat
        /\ forall t,
             r = Some t ->
             exists resp,
               fst (Client.post_speech_to_text net audio_bytes w) = inr resp
               /\ Client.status_code resp = 200%Z
               /\ Client.payload resp = inr (Some t)
               /\ evs = [])
  /\ (forall message,
        exists r evs,
          Eff.result (Client.get_ai_response net message (s, w)) = Eff.Return r
          /\ fst (Eff.final (Client.get_ai_response net message (s, w))) = s
          /\ Eff.events (Client.get_ai_response net message (s, w))
             = Client.chat_request message s :: evs
          /\ (length evs <= 1)%nat
          /\ forall t,
               r = Some t ->
               exists resp,
                 fst (Client.post_chat net
                        {| Api.message := message;
                           Api.conversation_history :=
                             slice_from (-10) (Client.conversation_history s) |}
                        w) = inr resp
                 /\ Client.status_code resp = 200%Z
                 /\ Client.payload resp = inr (Some t)
                 /\ evs = [])
  /\ (forall text,
        exists r evs,
          Eff.result (Client.text_to_speech net text (s, w)) = Eff.Return r
          /\ fst (Eff.final (Client.text_to_speech net text (s, w))) = s
          /\ Eff.events (Client.text_to_speech net text (s, w))
             = (s, Client.requests_post_text_to_speech text) :: evs
          /\ (length evs <= 1)%nat
          /\ forall t,
               r = Some t ->
               exists resp,
                 fst (Client.post_text_to_speech net text w) = inr resp
                 /\ Client.status_code resp = 200%Z
                 /\ Client.payload resp = inr t
                 /\ evs = []).
Proof.
  split; [|split].
  - intros audio_bytes.
    unfold Client.speech_to_text, Eff.try_except, Eff.bind, Client.request,
      Client.read, Client.do, Eff.ret, Eff.raise, Eff.result, Eff.final,
      Eff.events.
    network_answers net; helper_table.
  - intros message.
    unfold Client.get_ai_response, Eff.try_except, Eff.bind, Client.session,
      Client.request, Client.read, Client.do, Eff.ret, Eff.raise, Eff.result,
      Eff.final, Eff.events, Client.chat_request.
    network_answers net; helper_table.
  - intros text.
    unfold Client.text_to_speech, Eff.try_except, Eff.bind, Client.request,
      Client.read, Client.do, Eff.ret, Eff.raise, Eff.result, Eff.final,
      Eff.events.
    network_answers net; helper_table.
Qed.
Ltac split_in :=
  repeat match goal with
    | H : In _ (_ ++ _) |- _ => apply in_app_or in H; destruct H as [H|H]
    | H : In _ (_ :: _) |- _ => destruct H as [H|H]
    | H : In _ [] |- _ => destruct H
    | F : Forall (Client.reported ?s) ?l, H : In ?ev ?l |- _ =>
        let R := fresh "R" in
        pose proof (reported_inv (proj1 (Forall_forall _ _) F _ H)) as R;
        clear H; destruct R as (? & ? & ? & ? & ? & ?)
    end.

(** The requests among the events of a helper's errors: none. *)
Lemma requests_of_reported s errs :
  Forall (Client.reported s) errs -> Page.requests_of errs = [].
Proof.
  unfold Page.requests_of.
  induction 1 as [|ev errs R _ IH]; [reflexivity|].
  cbn [List.map filter]. destruct (reported_inv R) as (_ & Hr & _).
  rewrite Hr. exact IH.
Qed.

Lemma requests_of_app evs evs' :
  Page.requests_of (evs ++ evs') = Page.requests_of evs ++ Page.requests_of evs'.
Proof. unfold Page.requests_of. rewrite map_app, filter_app. reflexivity. Qed.

(** The requests of a turn, by the way it ends. *)
Lemma turn_end_requests u s o s' evs :
  Client.turn_end u s o s' evs ->
  exists data,
    Api.message data = u
    /\ (Page.requests_of evs = [Client.requests_post_chat data]
        \/ exists reply,
             and_strip (Some reply) = true
             /\ Page.requests_of evs
                = [Client.requests_post_chat data;
                   Client.requests_post_text_to_speech reply]).
Proof.
  intros T. eexists. split; [|destruct T as [errs F|reply errs errs' Hr F F'
                                           |reply audio_data errs errs' Hr Ha F F']].
  2: { left. unfold Client.chat_request.
       change (?x :: ?l ++ ?m) with ([x] ++ l ++ m).
       rewrite !requests_of_app, (requests_of_reported F). reflexivity. }
  2: { right. exists reply. split; [exact Hr|]. unfold Client.chat_request.
       change (?x :: errs ++ ?y :: errs' ++ ?m)
         with ([x] ++ errs ++ [y] ++ errs' ++ m).
       rewrite !requests_of_app, (requests_of_reported F),
         (requests_of_reported F'). reflexivity. }
  2: { right. exists reply. split; [exact Hr|]. unfold Client.chat_request.
       change (?x :: errs ++ ?y :: errs' ++ ?m)
         with ([x] ++ errs ++ [y] ++ errs' ++ m).
       rewrite !requests_of_app, (requests_of_reported F),
         (requests_of_reported F'). reflexivity. }
  reflexivity.
Qed.

(** X11: a turn makes at most one request per stage, in the order of the
    pipeline.  A voice turn sends the recording to transcription and then
    nothing, or the chat request for the transcript, or the chat request and
    the synthesis request; a text turn sends the chat request for the typed
    text, alone or followed by the synthesis request.  Synthesis is asked
    only for a reply that is not blank. *)
Theorem requests_follow_the_pipeline W (net : Client.network W) s w :
  (forall audio_bytes,
      Page.requests_of (Eff.events (Client.voice_turn net audio_bytes (s, w)))
      = [Client.requests_post_speech_to_text audio_bytes]
      \/ exists data,
           and_strip (Some (Api.message data)) = true
           /\ (Page.requests_of
                 (Eff.events (Client.voice_turn net audio_bytes (s, w)))
               = [Client.requests_post_speech_to_text audio_bytes;
                  Client.requests_post_chat data]
               \/ exists reply,
                    and_strip (Some reply) = true
                    /\ Page.requests_of
                         (Eff.events (Client.voice_turn net audio_bytes (s, w)))
                       = [Client.requests_post_speech_to_text audio_bytes;
                          Client.requests_post_chat data;
                          Client.requests_post_text_to_speech reply]))
  /\ (forall u,
        exists data,
          Api.message data = u
          /\ (Page.requests_of (Eff.events (Client.text_turn net u (s, w)))
              = [Client.requests_post_chat data]
              \/ exists reply,
                   and_strip (Some reply) = true
                   /\ Page.requests_of
                        (Eff.events (Client.text_turn net u (s, w)))
                      = [Client.requests_post_chat data;
                         Client.requests_post_text_to_speech reply])).
Proof.
  split.
  - intros audio_bytes.
    destruct (voice_turn_run net audio_bytes s w)
      as (t & w1 & evs1 & o & s' & w' & evs & _ & E & T).
    rewrite E. cbn [Eff.events snd].
    destruct T as [t errs Ht F|said errs o s' evs Ht F T].
    + left.
      change (?x :: errs ++ ?m) with ([x] ++ errs ++ m).
      rewrite !requests_of_app, (requests_of_reported F). reflexivity.
    + right.
      destruct (turn_end_requests T) as (data & Hd & Hreq).
      exists data. split; [rewrite Hd; exact Ht|].
      change (?x :: errs ++ ?y :: evs) with ([x] ++ errs ++ [y] ++ evs).
      rewrite !requests_of_app, (requests_of_reported F).
      destruct Hreq as [Hreq|(reply & Hr & Hreq)]; rewrite Hreq.
      * left. reflexivity.
      * right. exists reply. split; [exact Hr|reflexivity].
  - intros u. rewrite text_turn_run.
    destruct (turn_run net u (Client.set_processing true s) w)
      as (o & s' & w' & evs & E & T).
    rewrite E. cbn [Eff.events snd].
    apply (turn_end_requests T).
Qed.

(** How a turn that reports a failed chat stage, and one that reruns,
    ends. *)
Lemma turn_end_outcomes u s o s' evs :
  Client.turn_end u s o s' evs ->
  (forall s0,
      In (s0, Client.failed_ai_response) evs ->
      o = Eff.Return tt
      /\ s' = Client.set_processing false (Client.user_turn u s)
      /\ forall ev t, In ev evs ->
                      snd ev <> Client.requests_post_text_to_speech t)
  /\ (o = Eff.Raise Client.RerunException ->
      exists reply audio_data,
        and_strip (Some reply) = true
        /\ truthy audio_data = true
        /\ s' = Client.set_processing false
                  (Client.assistant_turn reply audio_data
                     (Client.user_turn u s))
        /\ In (Client.user_turn u s, Client.requests_post_text_to_speech reply)
              evs
        /\ In (Client.assistant_turn reply audio_data (Client.user_turn u s),
               Client.st_markdown_audio audio_data) evs
        /\ In (s', Client.st_rerun) evs).
Proof.
  intros T.
  destruct T as [errs F|reply errs errs' Hr F F'
                |reply audio_data errs errs' Hr Ha F F'].
  - split; [|discriminate].
    intros s0 _. split; [reflexivity|]. split; [reflexivity|].
    intros ev t Hev. unfold Client.chat_request in Hev.
    split_in; subst; cbn [snd]; try discriminate.
    intros E. rewrite E in *. discriminate.
  - split; [|discriminate].
    intros s0 Hin. exfalso. unfold Client.chat_request in Hin.
    split_in; try discriminate; try (cbn [snd] in *; congruence).
  - split.
    + intros s0 Hin. exfalso. unfold Client.chat_request in Hin.
      split_in; try discriminate; try (cbn [snd] in *; congruence).
    + intros _. exists reply, audio_data.
      repeat split; try assumption.
      * right. apply in_or_app. right. left. reflexivity.
      * right. apply in_or_app. right. right. apply in_or_app. right.
        right. left. reflexivity.
      * right. apply in_or_app. right. right. apply in_or_app. right.
        right. right. left. reflexivity.
Qed.
(** X9: a turn whose chat stage fails ([get_ai_response] returns nothing,
    or an empty or blank reply) stops there: it shows "Failed to get AI
    response", asks for no speech synthesis, returns without a rerun, and
    leaves behind the user turn (and, for a voice turn, the stored recording)
    and nothing else. *)
Theorem chat_failure_keeps_user_turn_only
  W (net : Client.network W) s w :
  Client.processing s = false ->
  (forall audio_bytes said r,
      let s0 := Client.voice_turn_start audio_bytes s in
      let heard := Client.speech_to_text net audio_bytes (s0, w) in
      let s1 := Client.user_turn said s0 in
      let chat :=
        Client.get_ai_response net said (s1, snd (Eff.final heard)) in
      let x := Client.voice_turn net audio_bytes (s, w) in
      Eff.result heard = Eff.Return (Some said) ->
      and_strip (Some said) = true ->
      Eff.result chat = Eff.Return r ->
      and_strip r = false ->
      In (s1, Client.failed_ai_response) (Eff.events x)
      /\ Eff.result x = Eff.Return tt
      /\ fst (Eff.final x)
         = Client.set_last_audio_bytes (Some audio_bytes)
             (Client.user_turn said s)
      /\ forall ev t, In ev (Eff.events x) ->
                      snd ev <> Client.requests_post_text_to_speech t)
  /\ (forall u r,
        let s1 := Client.user_turn u (Client.set_processing true s) in
        let chat := Client.get_ai_response net u (s1, w) in
        let x := Client.text_turn net u (s, w) in
        Eff.result chat = Eff.Return r ->
        and_strip r = false ->
        In (s1, Client.failed_ai_response) (Eff.events x)
        /\ Eff.result x = Eff.Return tt
        /\ fst (Eff.final x) = Client.user_turn u s
        /\ forall ev t, In ev (Eff.events x) ->
                        snd ev <> Client.requests_post_text_to_speech t).
Proof.
  intros Hp.
  assert (Turn : forall u s' w' r,
             Eff.result (Client.get_ai_response net u
                           (Client.user_turn u s', w'))
             = Eff.Return r ->
             and_strip r = false ->
             exists w'' evs,
               Client.turn net u (s', w')
               = (Eff.Return tt,
                  (Client.set_processing false (Client.user_turn u s'), w''),
                  evs ++ [(Client.user_turn u s', Client.failed_ai_response)])
               /\ forall ev t, In ev evs ->
                    snd ev <> Client.requests_post_text_to_speech t).
  { intros u s' w' r Hc Hr.
    destruct (turn_stages net u s' w') as (r' & Er & E). cbv zeta in E.
    rewrite Hc in Er. injection Er as <-. rewrite Hr in E.
    destruct (get_ai_response_run net u (Client.user_turn u s') w')
      as (r2 & w1 & errs & Eg & F).
    rewrite Eg in E. cbn [Eff.events Eff.final snd] in E.
    do 2 eexists. split; [exact E|].
    intros ev t Hev. unfold Client.chat_request in Hev.
    split_in; subst; cbn [snd]; try discriminate.
    intros E'. rewrite E' in *. discriminate. }
  split.
  - intros audio_bytes said r s0 heard s1 chat x Hh Hsaid Hc Hr.
    destruct (voice_turn_stages net audio_bytes s w) as (t & Et & E).
    cbv zeta in E. fold s0 heard in Et, E.
    rewrite Hh in Et. injection Et as <-. rewrite Hsaid in E.
    destruct (Turn said s0 (snd (Eff.final heard)) r Hc Hr)
      as (w'' & evs & E' & Hno).
    subst x. rewrite E, E'. cbn [Eff.result Eff.final Eff.events fst snd].
    split.
    { apply in_or_app. right. right. apply in_or_app. right. left.
      reflexivity. }
    split; [reflexivity|]. split.
    { subst s0. destruct s; cbn in *; subst; reflexivity. }
    intros ev t Hev.
    destruct (speech_to_text_run net audio_bytes s0 w)
      as (t2 & w1 & errs & Eh & F).
    subst heard. rewrite Eh in Hev. cbn [Eff.events snd] in Hev.
    apply in_app_or in Hev. destruct Hev as [Hev|Hev].
    { split_in; subst; cbn [snd]; try discriminate.
      intros E''. rewrite E'' in *. discriminate. }
    destruct Hev as [Hev|Hev]; [subst; discriminate|].
    apply in_app_or in Hev. destruct Hev as [Hev|Hev].
    + apply Hno. exact Hev.
    + destruct Hev as [Hev|[]]. subst. discriminate.
  - intros u r s1 chat x Hc Hr.
    destruct (Turn u (Client.set_processing true s) w r Hc Hr)
      as (w'' & evs & E' & Hno).
    subst x. rewrite text_turn_run, E'.
    cbn [Eff.result Eff.final Eff.events fst snd].
    split; [apply in_or_app; right; left; reflexivity|].
    split; [reflexivity|]. split.
    { destruct s; cbn in *; subst; reflexivity. }
    intros ev t Hev. apply in_app_or in Hev. destruct Hev as [Hev|Hev].
    + apply Hno. exact Hev.
    + destruct Hev as [Hev|[]]. subst. discriminate.
Qed.

Lemma chat_failure_keeps_user_turn_only_witness :
  let s1 := Client.user_turn (lit "hi")
              (Client.set_processing true Client.initial_session_state) in
  let x := Client.text_turn Samples.network_chat_down (lit "hi")
             (Client.initial_session_state, tt) in
  In (s1, Client.failed_ai_response) (Eff.events x)
  /\ Eff.result x = Eff.Return tt
  /\ fst (Eff.final x)
     = Client.user_turn (lit "hi") Client.initial_session_state
  /\ forall ev t, In ev (Eff.events x) ->
                  snd ev <> Client.requests_post_text_to_speech t.
Proof.
  apply (proj2 (@chat_failure_keeps_user_turn_only
                  unit Samples.network_chat_down Client.initial_session_state
                  tt eq_refl) (lit "hi") None);
    reflexivity.
Defined.

(** X10: a turn that ends in a rerun is a turn that was answered: the
    reply is not blank and its audio not empty; the reply that was sent to
    synthesis is the one appended, as an assistant turn, to both lists; the
    audio appended is the audio played; and beyond the two appended turns
    (and, for a voice turn, the stored recording) the session is as
    before. *)
Theorem rerun_means_answered W (net : Client.network W) s w :
  Client.processing s = false ->
  (forall audio_bytes,
      Eff.result (Client.voice_turn net audio_bytes (s, w))
      = Eff.Raise Client.RerunException ->
      exists said reply audio_data s1 s2,
        and_strip (Some said) = true
        /\ and_strip (Some reply) = true
        /\ truthy audio_data = true
        /\ fst (Eff.final (Client.voice_turn net audio_bytes (s, w)))
           = Client.set_last_audio_bytes (Some audio_bytes)
               (Client.assistant_turn reply audio_data
                  (Client.user_turn said s))
        /\ In (s1, Client.requests_post_text_to_speech reply)
              (Eff.events (Client.voice_turn net audio_bytes (s, w)))
        /\ In (s2, Client.st_markdown_audio audio_data)
              (Eff.events (Client.voice_turn net audio_bytes (s, w))))
  /\ (forall u,
        Eff.result (Client.text_turn net u (s, w))
        = Eff.Raise Client.RerunException ->
        exists reply audio_data s1 s2,
          and_strip (Some reply) = true
          /\ truthy audio_data = true
          /\ fst (Eff.final (Client.text_turn net u (s, w)))
             = Client.assistant_turn reply audio_data (Client.user_turn u s)
          /\ In (s1, Client.requests_post_text_to_speech reply)
                (Eff.events (Client.text_turn net u (s, w)))
          /\ In (s2, Client.st_markdown_audio audio_data)
                (Eff.events (Client.text_turn net u (s, w)))).
Proof.
  intros Hp. split.
  - intros audio_bytes Hr.
    destruct (voice_turn_run net audio_bytes s w)
      as (t & w1 & evs1 & o & s' & w' & evs & _ & E & T).
    rewrite E in *. cbn [Eff.result Eff.final Eff.events fst snd] in *.
    destruct T as [t errs Ht F|said errs o s' evs Ht F T]; [discriminate|].
    destruct (turn_end_outcomes T) as [_ Answered].
    destruct (Answered Hr) as (reply & audio_data & H1 & H2 & H3 & H4 & H5 & _).
    exists said, reply, audio_data. do 2 eexists.
    split; [exact Ht|]. split; [exact H1|]. split; [exact H2|]. split.
    + rewrite H3. destruct s; cbn in *; subst; reflexivity.
    + split; right; apply in_or_app; right; right; eassumption.
  - intros u Hr. rewrite text_turn_run in *.
    destruct (turn_run net u (Client.set_processing true s) w)
      as (o & s' & w' & evs & E & T).
    rewrite E in *. cbn [Eff.result Eff.final Eff.events fst snd] in *.
    destruct (turn_end_outcomes T) as [_ Answered].
    destruct (Answered Hr) as (reply & audio_data & H1 & H2 & H3 & H4 & H5 & _).
    exists reply, audio_data. do 2 eexists.
    split; [exact H1|]. split; [exact H2|]. split.
    + rewrite H3. destruct s; cbn in *; subst; reflexivity.
    + split; eassumption.
Qed.

Lemma rerun_means_answered_witness :
  exists reply audio_data s1 s2,
    and_strip (Some reply) = true
    /\ truthy audio_data = true
    /\ fst (Eff.final (Client.text_turn Fixtures.network_up (lit "hi")
                         (Client.initial_session_state, tt)))
       = Client.assistant_turn reply audio_data
           (Client.user_turn (lit "hi") Client.initial_session_state)
    /\ In (s1, Client.requests_post_text_to_speech reply)
          (Eff.events (Client.text_turn Fixtures.network_up (lit "hi")
                         (Client.initial_session_state, tt)))
    /\ In (s2, Client.st_markdown_audio audio_data)
          (Eff.events (Client.text_turn Fixtures.network_up (lit "hi")
                         (Client.initial_session_state, tt))).
Proof.
  apply (proj2 (@rerun_means_answered unit Fixtures.network_up
                  Client.initial_session_state tt eq_refl) (lit "hi")).
  reflexivity.
Defined.

(** ** The session over successive runs *)

Section Kept.
Import Eff Client.
Variable W : Type.
Variable net : network W.

(** A property of the session that the flag and the stored recording do
    not matter to, and that appending a user turn, and an assistant turn
    right after it, keep. *)
Variable I : session_state -> Prop.
Hypothesis I_processing : forall s v, I s -> I (set_processing v s).
Hypothesis I_last_audio_bytes : forall s v, I s -> I (set_last_audio_bytes v s).
Hypothesis I_user_turn : forall s u, truthy u = true -> I s -> I (user_turn u s).
Hypothesis I_assistant_turn :
  forall s u reply audio_data,
    and_strip (Some reply) = true ->
    truthy audio_data = true ->
    I (user_turn u s) ->
    I (assistant_turn reply audio_data (user_turn u s)).

Lemma turn_end_keeps u s o s' evs :
  turn_end u s o s' evs -> truthy u = true -> I s -> I s'.
Proof.
  intros T Hu Hs. destruct T; auto.
Qed.

Lemma voice_turn_keeps audio_bytes s w :
  I s -> I (fst (final (voice_turn net audio_bytes (s, w)))).
Proof.
  intros Hs.
  destruct (voice_turn_run net audio_bytes s w)
    as (t & w1 & evs1 & o & s' & w' & evs & _ & E & T).
  rewrite E. cbn [final fst snd].
  destruct T as [t errs Ht F|said errs o s' evs Ht F T].
  - unfold voice_turn_start. auto.
  - apply (turn_end_keeps T).
    + cbn [and_strip] in Ht. apply andb_prop in Ht. tauto.
    + unfold voice_turn_start. auto.
Qed.

Lemma text_turn_keeps u s w :
  truthy u = true -> I s -> I (fst (final (text_turn net u (s, w)))).
Proof.
  intros Hu Hs. rewrite text_turn_run.
  destruct (turn_run net u (set_processing true s) w)
    as (o & s' & w' & evs & E & T).
  rewrite E. cbn [final fst snd].
  apply (turn_end_keeps T); auto.
Qed.

Lemma voice_input_keeps recorded s w :
  I s -> I (fst (final (voice_input net recorded (s, w)))).
Proof.
  intros Hs. rewrite voice_input_run.
  destruct (processing s); [exact Hs|].
  destruct recorded as [audio_bytes|]; [|exact Hs].
  destruct (truthy audio_bytes); [|exact Hs].
  destruct (opt_bytes_eq_dec _ _); [exact Hs|].
  apply voice_turn_keeps. exact Hs.
Qed.

Lemma text_input_keeps typed s w :
  I s -> I (fst (final (text_input net typed (s, w)))).
Proof.
  intros Hs. rewrite text_input_run.
  destruct (processing s); [exact Hs|].
  destruct typed as [u|]; [|exact Hs].
  destruct (truthy u) eqn:Hu; [|exact Hs].
  apply text_turn_keeps; assumption.
Qed.

Lemma run_keeps i s w :
  (clear_conversation i = true -> I initial_session_state) ->
  I s -> I (fst (final (run net i (s, w)))).
Proof.
  intros Hclear Hs.
  destruct (clear_conversation i) eqn:Hc.
  { rewrite run_run, Hc. apply Hclear. reflexivity. }
  destruct (run_page net i s w Hc) as (w0 & page & _ & E).
  rewrite E. cbv zeta. cbn [final fst snd].
  rewrite bind_run.
  pose proof (@voice_input_keeps (audio_recorder i) s w0 Hs) as Hv.
  destruct (voice_input net (audio_recorder i) (s, w0))
    as [[[[]|e] [s1 w1]] evs1]; cbn [final fst snd] in *.
  - apply text_input_keeps. exact Hv.
  - exact Hv.
Qed.

Lemma runs_keep reruns s w :
  I initial_session_state -> I s -> I (fst (Page.runs net reruns (s, w))).
Proof.
  intros H0. revert s w.
  induction reruns as [|i later IH]; intros s w Hs; [exact Hs|].
  cbn [Page.runs].
  destruct (final (run net i (s, w))) as [s1 w1] eqn:E.
  apply IH. change s1 with (fst (s1, w1)). rewrite <- E.
  apply run_keeps; auto.
Qed.

Lemma runs_keep_uncleared reruns s w :
  Page.never_cleared reruns -> I s -> I (fst (Page.runs net reruns (s, w))).
Proof.
  intros Hn. revert s w.
  induction Hn as [|i later Hi _ IH]; intros s w Hs; [exact Hs|].
  cbn [Page.runs].
  destruct (final (run net i (s, w))) as [s1 w1] eqn:E.
  apply IH. change s1 with (fst (s1, w1)). rewrite <- E.
  apply run_keeps; [congruence|exact Hs].
Qed.
End Kept.

Lemma str_eqb_refl a : str_eqb a a = true.
Proof. unfold str_eqb. destruct (list_eq_dec N.eq_dec a a); congruence. Qed.

Lemma str_eqb_eq a b : str_eqb a b = true -> a = b.
Proof.
  unfold str_eqb. destruct (list_eq_dec N.eq_dec a b); congruence.
Qed.

(** X12: the display messages and the conversation history never drift
    apart: after any runs of a fresh session, whatever the network does, the
    history is the list of display messages without their audio, entry by
    entry. *)
Theorem messages_and_history_in_step
  W (net : Client.network W) (reruns : list Client.inputs) (w : W) :
  Page.in_step (fst (Page.runs net reruns (Client.initial_session_state, w)))
  /\ length (Client.messages
               (fst (Page.runs net reruns (Client.initial_session_state, w))))
     = length (Client.conversation_history
                 (fst (Page.runs net reruns (Client.initial_session_state, w)))).
Proof.
  assert (H : Page.in_step
                (fst (Page.runs net reruns (Client.initial_session_state, w)))).
  { apply runs_keep with (I := Page.in_step); unfold Page.in_step.
    - intros s v H. exact H.
    - intros s v H. exact H.
    - intros s u _ H. cbn. rewrite map_app, H. reflexivity.
    - intros s u reply audio_data _ _ H. cbn in *.
      rewrite map_app, H. reflexivity.
    - reflexivity.
    - reflexivity. }
  split; [exact H|].
  unfold Page.in_step in H. rewrite <- H. symmetry. apply length_map.
Qed.

(** The two invariants of the display messages, for the statements below. *)
Lemma runs_well_formed
  W (net : Client.network W) (reruns : list Client.inputs) (w : W) :
  Page.well_formed
    (fst (Page.runs net reruns (Client.initial_session_state, w))) = true.
Proof.
  apply runs_keep with (I := fun s => Page.well_formed s = true);
    unfold Page.well_formed.
  - intros s v H. exact H.
  - intros s v H. exact H.
  - intros s u Hu H. cbn [Client.user_turn Client.messages
                          Client.conversation_history_append
                          Client.messages_append].
    rewrite forallb_app, H. cbn [forallb].
    unfold Page.user_message. cbn [Client.role Client.content Client.audio].
    rewrite str_eqb_refl, Hu. reflexivity.
  - intros s u reply audio_data Hr Ha H.
    cbn [Client.assistant_turn Client.user_turn Client.messages
         Client.conversation_history_append Client.messages_append] in *.
    rewrite forallb_app, H. cbn [forallb].
    unfold Page.assistant_message.
    cbn [Client.role Client.content Client.audio].
    rewrite str_eqb_refl, Hr, Ha. rewrite orb_true_r. reflexivity.
  - reflexivity.
  - reflexivity.
Qed.

(** X13: every display message that a session ever holds is of one of
    two kinds: a user message, with role "user", a content that is not empty
    and no audio; or an assistant message, with role "assistant", a content
    that is not blank and an audio that is not empty. *)
Theorem display_messages_are_of_two_kinds
  W (net : Client.network W) (reruns : list Client.inputs) (w : W) m :
  In m (Client.messages
          (fst (Page.runs net reruns (Client.initial_session_state, w)))) ->
  (Client.role m = lit "user"
   /\ Client.content m <> []
   /\ Client.audio m = None)
  \/ (Client.role m = lit "assistant"
      /\ and_strip (Some (Client.content m)) = true
      /\ exists data, Client.audio m = Some data /\ data <> []).
Proof.
  intros Hin.
  pose proof (runs_well_formed net reruns w) as H.
  unfold Page.well_formed in H. rewrite forallb_forall in H.
  specialize (H m Hin). apply orb_prop in H. destruct H as [H|H].
  - left. unfold Page.user_message in H.
    apply andb_prop in H. destruct H as [H Ha].
    apply andb_prop in H. destruct H as [Hr Hc].
    split; [apply str_eqb_eq; exact Hr|]. split.
    + intros E. rewrite E in Hc. discriminate.
    + destruct (Client.audio m); [discriminate|reflexivity].
  - right. unfold Page.assistant_message in H.
    apply andb_prop in H. destruct H as [H Ha].
    apply andb_prop in H. destruct H as [Hr Hc].
    split; [apply str_eqb_eq; exact Hr|]. split; [exact Hc|].
    destruct (Client.audio m) as [data|]; [|discriminate].
    exists data. split; [reflexivity|].
    intros E. rewrite E in Ha. discriminate.
Qed.

Lemma display_messages_are_of_two_kinds_witness :
  let m := {| Client.role := lit "assistant";
              Client.content := lit "Four.";
              Client.audio := Some [Byte.x49; Byte.x44; Byte.x33] |} in
  (Client.role m = lit "user"
   /\ Client.content m <> []
   /\ Client.audio m = None)
  \/ (Client.role m = lit "assistant"
      /\ and_strip (Some (Client.content m)) = true
      /\ exists data, Client.audio m = Some data /\ data <> []).
Proof.
  apply (@display_messages_are_of_two_kinds unit Fixtures.network_up
           [Fixtures.speak_clip] tt).
  vm_compute. repeat (first [left; reflexivity | right]).
Defined.

Lemma app_eq_snoc A (l earlier later : list A) (x a : A) :
  l ++ [x] = earlier ++ a :: later ->
  (later = [] /\ earlier = l /\ a = x)
  \/ exists later', later = later' ++ [x] /\ l = earlier ++ a :: later'.
Proof.
  intros H.
  induction later as [|y later' _] using rev_ind.
  - left. apply app_inj_tail in H. destruct H. auto.
  - right. exists later'.
    rewrite app_comm_cons, app_assoc in H.
    apply app_inj_tail in H. destruct H as [Hl Hx]. subst y.
    split; [reflexivity|exact Hl].
Qed.

(** X14: the conversation history only ever holds entries of role "user"
    or "assistant", and every assistant entry comes right after a user
    entry: no reply without a question, never two replies in a row, never a
    reply first. *)
Theorem replies_always_follow_a_user_turn
  W (net : Client.network W) (reruns : list Client.inputs) (w : W) :
  Page.replies_follow_users
    (Client.conversation_history
       (fst (Page.runs net reruns (Client.initial_session_state, w)))).
Proof.
  apply runs_keep
    with (I := fun s => Page.replies_follow_users (Client.conversation_history s)).
  - intros s v H. exact H.
  - intros s v H. exact H.
  - intros s u _ [Hroles Hpairs].
    cbn [Client.user_turn Client.conversation_history_append
         Client.conversation_history Client.messages_append].
    split.
    + intros h Hin. apply in_app_or in Hin. destruct Hin as [Hin|[Hin|[]]].
      * apply Hroles. exact Hin.
      * subst h. left. reflexivity.
    + intros earlier a later E Ha.
      apply app_eq_snoc in E.
      destruct E as [(_ & _ & E)|(later' & _ & E)].
      * subst a. discriminate Ha.
      * apply (Hpairs earlier a later' E Ha).
  - intros s u reply audio_data _ _ [Hroles Hpairs].
    cbn [Client.assistant_turn Client.user_turn
         Client.conversation_history_append Client.conversation_history
         Client.messages_append] in *.
    split.
    + intros h Hin. apply in_app_or in Hin. destruct Hin as [Hin|[Hin|[]]].
      * apply Hroles. exact Hin.
      * subst h. right. reflexivity.
    + intros earlier a later E Ha.
      apply app_eq_snoc in E.
      destruct E as [(_ & E & _)|(later' & _ & E)].
      * subst earlier. do 2 eexists. split; reflexivity.
      * apply (Hpairs earlier a later' E Ha).
  - split; [intros h []|].
    intros earlier a later E. destruct earlier; discriminate E.
  - split; [intros h []|].
    intros earlier a later E. destruct earlier; discriminate E.
Qed.

(** X15: as long as the conversation is not cleared, nothing that was
    appended is ever removed or rewritten: after any such runs, from any
    session, both lists are the old lists followed by what was appended, and
    what was appended to the history is what was appended to the display
    messages, without the audio. *)
Theorem conversation_is_append_only
  W (net : Client.network W) (reruns : list Client.inputs) s (w : W) :
  Page.never_cleared reruns ->
  Page.extends s (fst (Page.runs net reruns (s, w))).
Proof.
  intros Hn.
  apply runs_keep_uncleared with (I := Page.extends s); try exact Hn;
    unfold Page.extends.
  - intros s1 v H. exact H.
  - intros s1 v H. exact H.
  - intros s1 u _ (added & Hm & Hh).
    eexists (added ++ [_]). cbn. rewrite Hm, Hh, map_app, !app_assoc.
    split; reflexivity.
  - intros s1 u reply audio_data _ _ (added & Hm & Hh).
    cbn in Hm, Hh.
    eexists (added ++ [_]). cbn. rewrite Hm, Hh, map_app, !app_assoc.
    split; reflexivity.
  - exists []. rewrite !app_nil_r. split; reflexivity.
Qed.

Lemma conversation_is_append_only_witness :
  Page.extends (Client.user_turn (lit "hi") Client.initial_session_state)
    (fst (Page.runs Fixtures.network_up
            [Fixtures.speak_clip; Fixtures.type_text (lit "And 3+3?")]
            (Client.user_turn (lit "hi") Client.initial_session_state, tt))).
Proof.
  apply (@conversation_is_append_only unit Fixtures.network_up
           [Fixtures.speak_clip; Fixtures.type_text (lit "And 3+3?")]).
  repeat constructor.
Defined.
(** A run on a session that is processing, without Clear. *)
Lemma run_processing W (net : Client.network W) i s w :
  Client.clear_conversation i = false ->
  Client.processing s = true ->
  Client.run net i (s, w)
  = (Eff.Return tt, (s, snd (Client.get_root net w)),
     Eff.events (Client.status_check net (s, w))
     ++ List.map (pair s) (flat_map Client.drawing (Client.messages s))
     ++ [(s, Client.st_info (lit "Processing... Please wait"));
         (s, Client.st_info
               (9203%N :: lit " Processing voice input... Text input disabled temporarily"))]).
Proof.
  intros Hc Hp.
  rewrite run_run, Hc. cbv zeta.
  rewrite bind_run, voice_input_run, Hp.
  rewrite text_input_run, Hp. reflexivity.
Qed.

(** X16: Clear Conversation resets all four fields whatever the session
    was, also one that is processing; that run makes no request and ignores
    its recording and its text.  The stored recording is forgotten with the
    rest, so a recording that the recorder still holds is sent to
    transcription again by the next run. *)
Theorem clear_forgets_the_recording
  W (net : Client.network W) i i' s w audio_bytes :
  Client.clear_conversation i = true ->
  Client.clear_conversation i' = false ->
  Client.audio_recorder i' = Some audio_bytes ->
  truthy audio_bytes = true ->
  Client.run net i (s, w)
  = (Eff.Raise Client.RerunException, (Client.initial_session_state, w),
     [(Client.initial_session_state, Client.st_rerun)])
  /\ In (Client.voice_turn_start audio_bytes Client.initial_session_state,
         Client.requests_post_speech_to_text audio_bytes)
        (Eff.events (Client.run net i' (Eff.final (Client.run net i (s, w))))).
Proof.
  intros Hc Hc' Ha Ht.
  assert (E : Client.run net i (s, w)
              = (Eff.Raise Client.RerunException,
                 (Client.initial_session_state, w),
                 [(Client.initial_session_state, Client.st_rerun)])).
  { rewrite run_run, Hc. reflexivity. }
  split; [exact E|]. rewrite E. cbn [Eff.final fst snd].
  destruct (run_page net i' Client.initial_session_state w Hc')
    as (w0 & page & _ & E').
  rewrite E'. cbv zeta. cbn [Eff.events snd].
  apply in_or_app. right.
  rewrite bind_run, voice_input_run, Ha, Ht.
  cbn [Client.processing Client.initial_session_state Client.last_audio_bytes].
  destruct (opt_bytes_eq_dec None (Some audio_bytes)) as [D|_];
    [discriminate D|].
  destruct (voice_turn_run net audio_bytes Client.initial_session_state w0)
    as (t & w1 & evs1 & o & s' & w' & evs & _ & Ev & T).
  rewrite Ev.
  destruct (voice_turn_end_facts T) as (_ & Hin & _).
  destruct o as [[]|e]; cbn [Eff.events snd].
  - apply in_or_app. left. exact Hin.
  - exact Hin.
Qed.

Lemma clear_forgets_the_recording_witness :
  Client.run Fixtures.network_up Samples.clear
    (fst (Page.runs Fixtures.network_up [Fixtures.speak_clip]
            (Client.initial_session_state, tt)), tt)
  = (Eff.Raise Client.RerunException, (Client.initial_session_state, tt),
     [(Client.initial_session_state, Client.st_rerun)])
  /\ In (Client.voice_turn_start Fixtures.clip Client.initial_session_state,
         Client.requests_post_speech_to_text Fixtures.clip)
        (Eff.events
           (Client.run Fixtures.network_up Fixtures.speak_clip
              (Eff.final
                 (Client.run Fixtures.network_up Samples.clear
                    (fst (Page.runs Fixtures.network_up [Fixtures.speak_clip]
                            (Client.initial_session_state, tt)), tt))))).
Proof.
  apply (@clear_forgets_the_recording unit Fixtures.network_up
           Samples.clear Fixtures.speak_clip); reflexivity.
Defined.

(** X17: a session whose flag is true stays as it is.  Whatever is
    recorded or typed, a run without Clear does, next to the fixed layout,
    the work of the page and no more: it sends the status request, shows the
    status, draws the conversation and shows the two "Processing" notes, all
    in the session it found.  It returns normally, sends no request of the
    pipeline and leaves the session as it was; behind the network only the
    status request has happened.  So after any number of such runs the flag
    is still true. *)
Theorem processing_session_stays_put
  W (net : Client.network W) (reruns : list Client.inputs) s w :
  Client.processing s = true ->
  Page.never_cleared reruns ->
  fst (Page.runs net reruns (s, w)) = s
  /\ forall i v, In i reruns ->
       exists shown,
         incl shown Client.status_messages
         /\ Client.run net i (s, v)
            = (Eff.Return tt, (s, snd (Client.get_root net v)),
               (s, Client.requests_get_root)
               :: List.map (pair s)
                    (shown
                     ++ flat_map Client.drawing (Client.messages s)
                     ++ [Client.st_info (lit "Processing... Please wait");
                         Client.st_info
                           (9203%N :: lit " Processing voice input... Text input disabled temporarily")]))
         /\ Page.requests_of (Eff.events (Client.run net i (s, v))) = [].
Proof.
  intros Hp Hn.
  assert (Run : forall i v,
             Client.clear_conversation i = false ->
             exists shown,
               incl shown Client.status_messages
               /\ Client.run net i (s, v)
                  = (Eff.Return tt, (s, snd (Client.get_root net v)),
                     (s, Client.requests_get_root)
                     :: List.map (pair s)
                          (shown
                           ++ flat_map Client.drawing (Client.messages s)
                           ++ [Client.st_info (lit "Processing... Please wait");
                               Client.st_info
                                 (9203%N :: lit " Processing voice input... Text input disabled temporarily")]))).
  { intros i v Hc. rewrite (@run_processing _ net i s v Hc Hp).
    destruct (status_check_run net s v) as (shown & E & F).
    exists shown. split; [exact F|]. rewrite E.
    cbn [Eff.events snd app]. rewrite !map_app. reflexivity. }
  split.
  - revert w. induction Hn as [|i later Hi _ IH]; intros w; [reflexivity|].
    cbn [Page.runs].
    destruct (Run i w Hi) as (shown & _ & E). rewrite E.
    cbn [Eff.final fst snd]. apply IH.
  - intros i v Hin. unfold Page.never_cleared in Hn.
    rewrite Forall_forall in Hn.
    destruct (Run i v (Hn i Hin)) as (shown & F & E).
    exists shown. split; [exact F|]. split; [exact E|].
    rewrite E. cbn [Eff.events snd]. unfold Page.requests_of.
    cbn [List.map filter snd Client.is_request].
    rewrite map_map. cbn [snd]. rewrite map_id.
    rewrite !filter_app. cbn [filter Client.is_request].
    rewrite !app_nil_r.
    assert (N1 : filter Client.is_request shown = []).
    { clear E. induction shown as [|a l IHl]; [reflexivity|].
      cbn [filter].
      assert (Ha : Client.is_request a = false).
      { assert (Hin' : In a Client.status_messages)
          by (apply F; left; reflexivity).
        unfold Client.status_messages in Hin'. cbn [In] in Hin'.
        decompose [or] Hin'; try contradiction; subst a; reflexivity. }
      rewrite Ha. apply IHl. intros x Hx. apply F. right. exact Hx. }
    assert (N2 : forall l, forallb Client.is_drawing l = true ->
                           filter Client.is_request l = []).
    { clear. induction l as [|a l IHl]; [reflexivity|].
      cbn [forallb filter]. intros H. apply andb_prop in H.
      destruct H as [Ha Hl].
      destruct a; try discriminate Ha; cbn [Client.is_request];
        apply IHl; exact Hl. }
    rewrite N1, (N2 _ (drawing_is_drawing (Client.messages s))).
    reflexivity.
Qed.

Lemma processing_session_stays_put_witness :
  let s := Client.set_processing true Client.initial_session_state in
  fst (Page.runs Fixtures.network_up
         [Fixtures.speak_clip; Fixtures.type_text (lit "hi")] (s, tt)) = s
  /\ forall i v, In i [Fixtures.speak_clip; Fixtures.type_text (lit "hi")] ->
       exists shown,
         incl shown Client.status_messages
         /\ Client.run Fixtures.network_up i (s, v)
            = (Eff.Return tt, (s, snd (Client.get_root Fixtures.network_up v)),
               (s, Client.requests_get_root)
               :: List.map (pair s)
                    (shown
                     ++ flat_map Client.drawing (Client.messages s)
                     ++ [Client.st_info (lit "Processing... Please wait");
                         Client.st_info
                           (9203%N :: lit " Processing voice input... Text input disabled temporarily")]))
         /\ Page.requests_of
              (Eff.events (Client.run Fixtures.network_up i (s, v))) = [].
Proof.
  apply (@processing_session_stays_put unit Fixtures.network_up
           [Fixtures.speak_clip; Fixtures.type_text (lit "hi")]).
  - reflexivity.
  - repeat constructor.
Defined.

(** X18: an idle run with nothing new only draws the page.  No
    recording, an empty recording or the stored recording, together with no
    text or an empty text: next to the fixed layout, the run sends the
    status request, shows the status and draws the conversation, and that
    is all.  It returns normally, starts no turn, and leaves the session as
    it was; behind the network only the status request has happened. *)
Theorem nothing_new_nothing_done
  W (net : Client.network W) i s w :
  Client.clear_conversation i = false ->
  Client.processing s = false ->
  Client.audio_recorder i = None
  \/ Client.audio_recorder i = Some []
  \/ Client.audio_recorder i = Client.last_audio_bytes s ->
  Client.chat_input i = None \/ Client.chat_input i = Some [] ->
  exists shown,
    incl shown Client.status_messages
    /\ Client.run net i (s, w)
       = (Eff.Return tt, (s, snd (Client.get_root net w)),
          (s, Client.requests_get_root)
          :: List.map (pair s)
               (shown ++ flat_map Client.drawing (Client.messages s))).
Proof.
  intros Hc Hp Ha Ht.
  rewrite run_run, Hc. cbv zeta.
  rewrite bind_run, voice_input_run, Hp.
  set (w1 := snd (Client.get_root net w)).
  assert (V : match Client.audio_recorder i with
              | Some audio_bytes =>
                  if truthy audio_bytes
                  then
                    if opt_bytes_eq_dec (Client.last_audio_bytes s)
                         (Some audio_bytes)
                    then Eff.ret tt (s, w1)
                    else Client.voice_turn net audio_bytes (s, w1)
                  else Eff.ret tt (s, w1)
              | None => Eff.ret tt (s, w1)
              end = Eff.ret tt (s, w1)).
  { destruct Ha as [Ha|[Ha|Ha]]; rewrite Ha; try reflexivity.
    destruct (Client.last_audio_bytes s) as [stored|]; [|reflexivity].
    destruct (truthy stored); [|reflexivity].
    destruct (opt_bytes_eq_dec _ _); [reflexivity|congruence]. }
  rewrite V. cbn [Eff.ret Eff.result Eff.final Eff.events fst snd app].
  rewrite text_input_run, Hp.
  destruct (status_check_run net s w) as (shown & E & F).
  exists shown. split; [exact F|]. rewrite E.
  cbn [Eff.events snd app]. rewrite map_app.
  destruct Ht as [Ht|Ht]; rewrite Ht;
    cbn [truthy Eff.ret Eff.result Eff.final Eff.events fst snd];
    rewrite app_nil_r; reflexivity.
Qed.

Lemma nothing_new_nothing_done_witness :
  exists shown,
    incl shown Client.status_messages
    /\ Client.run Fixtures.network_up Samples.nothing_new
         (Client.initial_session_state, tt)
       = (Eff.Return tt,
          (Client.initial_session_state,
           snd (Client.get_root Fixtures.network_up tt)),
          (Client.initial_session_state, Client.requests_get_root)
          :: List.map (pair Client.initial_session_state)
               (shown
                ++ flat_map Client.drawing
                     (Client.messages Client.initial_session_state))).
Proof.
  apply (@nothing_new_nothing_done unit Fixtures.network_up
           Samples.nothing_new Client.initial_session_state tt).
  - reflexivity.
  - reflexivity.
  - right. left. reflexivity.
  - right. reflexivity.
Defined.

(** X19: typed text is taken as it is.  Only an empty text is ignored:
    any other text, also one of nothing but whitespace, starts a text turn,
    is appended to the history as typed and is sent to /chat as typed; the
    blank check that stops a voice turn is not made on typed text. *)
Theorem typed_text_is_not_stripped
  W (net : Client.network W) u s w :
  Client.processing s = false ->
  u <> [] ->
  In (Client.chat_request u (Client.user_turn u (Client.set_processing true s)))
     (Eff.events (Client.text_input net (Some u) (s, w)))
  /\ exists rest,
       Client.conversation_history
         (fst (Eff.final (Client.text_input net (Some u) (s, w))))
       = Client.conversation_history s
         ++ {| Api.role := lit "user"; Api.content := u |} :: rest.
Proof.
  intros Hp Hu. rewrite text_input_run, Hp.
  assert (Ht : truthy u = true) by (destruct u; [contradiction|reflexivity]).
  rewrite Ht, text_turn_run.
  destruct (turn_run net u (Client.set_processing true s) w)
    as (o & s' & w' & evs & E & T).
  rewrite E. cbn [Eff.final Eff.events fst snd].
  split; [apply (turn_end_facts T)|].
  destruct T; cbn; rewrite <- ?app_assoc; eexists; reflexivity.
Qed.

Lemma typed_text_is_not_stripped_witness :
  In (Client.chat_request (lit "   ")
        (Client.user_turn (lit "   ")
           (Client.set_processing true Client.initial_session_state)))
     (Eff.events (Client.text_input Fixtures.network_up (Some (lit "   "))
                    (Client.initial_session_state, tt)))
  /\ exists rest,
       Client.conversation_history
         (fst (Eff.final (Client.text_input Fixtures.network_up
                            (Some (lit "   "))
                            (Client.initial_session_state, tt))))
       = Client.conversation_history Client.initial_session_state
         ++ {| Api.role := lit "user"; Api.content := lit "   " |} :: rest.
Proof.
  apply (@typed_text_is_not_stripped unit Fixtures.network_up (lit "   ")
           Client.initial_session_state tt).
  - reflexivity.
  - discriminate.
Defined.

Lemma filter_none A (p : A -> bool) (l : list A) :
  (forall x, In x l -> p x = false) -> filter p l = [].
Proof.
  induction l as [|a l IH]; [reflexivity|].
  intros H. cbn [filter]. rewrite (H a (or_introl eq_refl)).
  apply IH. intros x Hx. apply H. right. exact Hx.
Qed.

Lemma filter_all A (p : A -> bool) (l : list A) :
  (forall x, In x l -> p x = true) -> filter p l = l.
Proof.
  induction l as [|a l IH]; [reflexivity|].
  intros H. cbn [filter]. rewrite (H a (or_introl eq_refl)).
  f_equal. apply IH. intros x Hx. apply H. right. exact Hx.
Qed.

(** What the chat container draws for messages of the two kinds. *)
Lemma drawing_well_formed (msgs : list Client.display_message) :
  forallb (fun m => Page.user_message m || Page.assistant_message m) msgs
  = true ->
  exists clips,
    Forall2 Page.clip_fits (List.map Page.entry_of msgs) clips
    /\ flat_map Client.drawing msgs
       = flat_map (fun hc => Page.drawn_entry (fst hc) (snd hc))
           (combine (List.map Page.entry_of msgs) clips).
Proof.
  induction msgs as [|m ms IH]; intros Hw.
  - exists []. split; [constructor|reflexivity].
  - cbn [forallb] in Hw. apply andb_prop in Hw. destruct Hw as [Hm Hms].
    destruct (IH Hms) as (clips & F & E).
    apply orb_prop in Hm. destruct Hm as [Hm|Hm].
    + unfold Page.user_message in Hm.
      apply andb_prop in Hm. destruct Hm as [Hm Ha].
      apply andb_prop in Hm. destruct Hm as [Hr _].
      apply str_eqb_eq in Hr.
      destruct (Client.audio m) as [data|] eqn:Ea; [discriminate Ha|].
      exists (None :: clips). split.
      * constructor; [exact Hr|exact F].
      * cbn [List.map combine flat_map fst snd]. rewrite <- E.
        unfold Client.drawing, Page.drawn_entry.
        cbn [Page.entry_of Api.role Api.content]. rewrite Ea.
        destruct (str_eqb _ _); reflexivity.
    + unfold Page.assistant_message in Hm.
      apply andb_prop in Hm. destruct Hm as [Hm Ha].
      apply andb_prop in Hm. destruct Hm as [Hr _].
      destruct (Client.audio m) as [data|] eqn:Ea; [|discriminate Ha].
      exists (Some data :: clips). split.
      * constructor; [|exact F]. split.
        -- apply str_eqb_eq. exact Hr.
        -- intros D. rewrite D in Ha. discriminate Ha.
      * cbn [List.map combine flat_map fst snd]. rewrite <- E.
        unfold Client.drawing, Page.drawn_entry.
        cbn [Page.entry_of Api.role Api.content]. rewrite Ea, Hr.
        reflexivity.
Qed.

(** X20: what the chat container draws, and when.  In a run on a session
    reached by any runs of a fresh session, the messages are drawn once,
    from the conversation that the run found, before its own turn; a run
    ended by Clear draws none.  For each entry of the conversation history,
    in order, the run draws a chat message of its role, its content and,
    right after it, an audio player exactly when it is an assistant entry;
    no player is given an empty clip; and nothing else of the run draws a
    message, so what a turn appends is drawn by the next run. *)
Theorem chat_container_follows_the_history
  W (net : Client.network W) (reruns : list Client.inputs) (w : W)
  (i : Client.inputs) :
  let sw := Page.runs net reruns (Client.initial_session_state, w) in
  exists clips,
    Forall2 Page.clip_fits (Client.conversation_history (fst sw)) clips
    /\ filter (fun ev => Client.is_drawing (snd ev))
         (Eff.events (Client.run net i sw))
       = if Client.clear_conversation i then []
         else List.map (pair (fst sw))
                (flat_map (fun hc => Page.drawn_entry (fst hc) (snd hc))
                   (combine (Client.conversation_history (fst sw)) clips)).
Proof.
  intros sw.
  pose proof (runs_well_formed net reruns w) as Hw. fold sw in Hw.
  assert (Hs : Page.in_step (fst sw)).
  { subst sw. apply runs_keep with (I := Page.in_step); unfold Page.in_step.
    - intros s v H. exact H.
    - intros s v H. exact H.
    - intros s u _ H. cbn. rewrite map_app, H. reflexivity.
    - intros s u reply audio_data _ _ H. cbn in *.
      rewrite map_app, H. reflexivity.
    - reflexivity.
    - reflexivity. }
  clearbody sw. destruct sw as [s w1]. cbn [fst] in *.
  unfold Page.in_step in Hs. unfold Page.well_formed in Hw.
  destruct (drawing_well_formed _ Hw) as (clips & F & E).
  rewrite Hs in F, E.
  exists clips. split; [exact F|].
  rewrite run_run.
  destruct (Client.clear_conversation i); [reflexivity|].
  cbv zeta. cbn [Eff.events snd].
  rewrite !filter_app.
  rewrite filter_none, filter_all, filter_none.
  - rewrite app_nil_r. cbn [app]. rewrite E. reflexivity.
  - intros ev Hev. apply (inputs_draw_nothing net i _ _ _ Hev).
  - intros ev Hev. apply in_map_iff in Hev.
    destruct Hev as (a & <- & Ha). cbn [snd].
    pose proof (drawing_is_drawing (Client.messages s)) as D.
    rewrite forallb_forall in D. apply D. exact Ha.
  - intros ev Hev.
    destruct (status_check_run net s w1) as (shown & Ec & Fc).
    rewrite Ec in Hev. cbn [Eff.events snd] in Hev.
    destruct Hev as [<-|Hev]; [reflexivity|].
    apply in_map_iff in Hev. destruct Hev as (a & <- & Ha). cbn [snd].
    apply Fc in Ha. unfold Client.status_messages in Ha. cbn [In] in Ha.
    decompose [or] Ha; try contradiction; subst a; reflexivity.
Qed.
